(** * bchutil: the BIP143 signature hash with fork identifier, and the raw
      input signature built on it

    A shallow embedding of [sign.go] (package [bchutil]) and a verification
    of its specification.

    Conventions.
    - Go's fixed-width integers are [Z]; every conversion ([uint32(x)],
      [uint64(x)], [byte(x)]) is written out as the wrap-around it performs.
    - A byte is [Byte.byte]; a [[]byte] value is a [list byte], and a
      [[]byte] result that may be [nil] is an [option (list byte)].
    - [chainhash.Hash] is [[32]byte], here [Vector.t byte 32]; [h[:]] is
      [Vector.to_list h].
    - The objects the Go functions reach through their reference parameters
      ([tx *wire.MsgTx], [sigHashes *txscript.TxSigHashes],
      [subScript []byte]) live in a store, next to the process's standard
      output; the functions are state transformers on that store that either
      return or panic. The pointers themselves ([tx], [sigHashes], [key] and
      the elements of [tx.TxIn] and [tx.TxOut]) are taken to be non-nil. *)

#[local] Set Warnings "-stdlib-vector".
From Stdlib Require Import ZArith List String Bool Lia.
From Stdlib Require Import Strings.Byte.
From Stdlib Require Vectors.Vector.
Import ListNotations.

Local Open Scope Z_scope.

(** ** Machine integers and bytes *)

(** [uint32(v)] and [uint64(v)]: reinterpretation of a signed value as the
    unsigned one of the same width. *)
Definition uint32 (v : Z) : Z := v mod 2 ^ 32.
Definition uint64 (v : Z) : Z := v mod 2 ^ 64.

(** [byte(v)]: the low eight bits. *)
Definition byte_of_Z (v : Z) : byte :=
  match Byte.of_N (Z.to_N (v mod 256)) with
  | Some b => b
  | None => x00
  end.

Definition Z_of_byte (b : byte) : Z := Z.of_N (Byte.to_N b).

(** [len(s)] as a Go [int]. *)
Definition len {A : Type} (s : list A) : Z := Z.of_nat (List.length s).

(** Go's [s[lo:hi]] on a slice, for [0 <= lo <= hi <= len(s)]. *)
Definition subslice {A : Type} (lo hi : Z) (s : list A) : list A :=
  firstn (Z.to_nat (hi - lo)) (skipn (Z.to_nat lo) s).

(** The unsigned integer a little-endian byte string denotes. *)
Fixpoint le_value (bs : list byte) : Z :=
  match bs with
  | [] => 0
  | b :: rest => Z_of_byte b + 256 * le_value rest
  end.

(** ** encoding/binary: [binary.LittleEndian] *)
Module LittleEndian.

Definition PutUint16 (v : Z) : list byte :=
  [byte_of_Z v; byte_of_Z (Z.shiftr v 8)].

Definition PutUint32 (v : Z) : list byte :=
  [byte_of_Z v; byte_of_Z (Z.shiftr v 8);
   byte_of_Z (Z.shiftr v 16); byte_of_Z (Z.shiftr v 24)].

Definition PutUint64 (v : Z) : list byte :=
  [byte_of_Z v; byte_of_Z (Z.shiftr v 8);
   byte_of_Z (Z.shiftr v 16); byte_of_Z (Z.shiftr v 24);
   byte_of_Z (Z.shiftr v 32); byte_of_Z (Z.shiftr v 40);
   byte_of_Z (Z.shiftr v 48); byte_of_Z (Z.shiftr v 56)].

End LittleEndian.

(** ** bytes.Buffer

    A buffer is the list of bytes written so far; [Write] appends a copy of
    its argument and [Bytes] reads the contents. *)
Module Buffer.
Definition t := list byte.
Definition empty : t := [].
Definition Write (b : t) (p : list byte) : t := b ++ p.
Definition Bytes (b : t) : list byte := b.
End Buffer.

(** ** chainhash *)
Module chainhash.
Definition HashSize : nat := 32.
Definition Hash := Vector.t byte HashSize.
(** [var zeroHash chainhash.Hash]: the zero value of the array type. *)
Definition zero : Hash := Vector.const x00 HashSize.
(** [h[:]] *)
Definition bytes (h : Hash) : list byte := Vector.to_list h.
End chainhash.

(** ** wire: the transaction and its serialization helpers *)
Module wire.

Record OutPoint := mkOutPoint {
  Hash : chainhash.Hash;
  Index : Z                       (* uint32 *)
}.

Record TxIn := mkTxIn {
  PreviousOutPoint : OutPoint;
  SignatureScript : list byte;
  Witness : list (list byte);
  Sequence : Z                    (* uint32 *)
}.

Record TxOut := mkTxOut {
  Value : Z;                      (* int64 *)
  PkScript : list byte
}.

Record MsgTx := mkMsgTx {
  Version : Z;                    (* int32 *)
  tx_TxIn : list TxIn;
  tx_TxOut : list TxOut;
  LockTime : Z                    (* uint32 *)
}.

(** [wire.WriteVarInt]: the shortest of the four encodings that holds
    [val] (a uint64). *)
Definition WriteVarInt (w : Buffer.t) (val : Z) : Buffer.t :=
  if val <? 253 then
    Buffer.Write w [byte_of_Z val]
  else if val <=? 65535 then
    Buffer.Write (Buffer.Write w [xfd]) (LittleEndian.PutUint16 val)
  else if val <=? 4294967295 then
    Buffer.Write (Buffer.Write w [xfe]) (LittleEndian.PutUint32 val)
  else
    Buffer.Write (Buffer.Write w [xff]) (LittleEndian.PutUint64 val).

(** [wire.WriteVarBytes]: the length as a variable-length integer, then
    the bytes. *)
Definition WriteVarBytes (w : Buffer.t) (bytes : list byte) : Buffer.t :=
  let slen := uint64 (len bytes) in
  let w := WriteVarInt w slen in
  Buffer.Write w bytes.

(** [wire.WriteTxOut]: the value as 8 little-endian bytes, then the
    public key script as variable-length bytes. *)
Definition WriteTxOut (w : Buffer.t) (to : TxOut) : Buffer.t :=
  let w := Buffer.Write w (LittleEndian.PutUint64 (uint64 (Value to))) in
  WriteVarBytes w (PkScript to).

End wire.

(** ** txscript: signature hash types and the hash cache *)
Module txscript.

Definition SigHashType := Z.      (* uint32 *)

Definition SigHashOld : SigHashType := 0.
Definition SigHashAll : SigHashType := 1.
Definition SigHashNone : SigHashType := 2.
Definition SigHashSingle : SigHashType := 3.
Definition SigHashAnyOneCanPay : SigHashType := 128.

Record TxSigHashes := mkTxSigHashes {
  HashPrevOuts : chainhash.Hash;
  HashSequence : chainhash.Hash;
  HashOutputs : chainhash.Hash
}.

End txscript.

(** ** The constants of [sign.go] *)
Definition SigHashForkID : txscript.SigHashType := 64.   (* 0x40 *)
Definition sigHashMask : Z := 31.                        (* 0x1f *)

(** ** The store, and computations that return or panic *)

(** What [fmt.Printf] was called with: the format and its operands. *)
Definition printed := (string * list Z)%type.

Record Mem := mkMem {
  m_subScript : list byte;                 (* the bytes behind [subScript] *)
  m_sigHashes : txscript.TxSigHashes;      (* the object behind [sigHashes] *)
  m_tx : wire.MsgTx;                       (* the object behind [tx] *)
  m_stdout : list printed                  (* standard output, oldest first *)
}.

Inductive panic :=
| IndexOutOfRange (i n : Z).               (* index out of range [i] with length n *)

Inductive outcome (A : Type) :=
| Returned (a : A)
| Panicked (p : panic).
Arguments Returned {A} a.
Arguments Panicked {A} p.

Definition M (A : Type) : Type := Mem -> outcome A * Mem.

Definition ret {A : Type} (a : A) : M A := fun m => (Returned a, m).

Definition bind {A B : Type} (c : M A) (k : A -> M B) : M B :=
  fun m =>
    match c m with
    | (Returned a, m') => k a m'
    | (Panicked p, m') => (Panicked p, m')
    end.

Notation "x <- c ;; k" := (bind c (fun x => k))
  (at level 61, c at next level, right associativity).
Notation "c ;;; k" := (bind c (fun _ => k))
  (at level 61, right associativity).

(** Reading a field of the store. *)
Definition load {A : Type} (f : Mem -> A) : M A := fun m => (Returned (f m), m).

(** Replacing the hash cache cell: a freshly built [*TxSigHashes]. *)
Definition new_sigHashes (h : txscript.TxSigHashes) : M unit :=
  fun m => (Returned tt,
            mkMem (m_subScript m) h (m_tx m) (m_stdout m)).

(** [fmt.Printf(format, args...)] *)
Definition Printf (format : string) (args : list Z) : M unit :=
  fun m => (Returned tt,
            mkMem (m_subScript m) (m_sigHashes m) (m_tx m)
                  (m_stdout m ++ [(format, args)])).

(** [s[i]]: a run-time panic unless [0 <= i < len(s)]. *)
Definition index {A : Type} (s : list A) (i : Z) : M A :=
  fun m =>
    if (i <? 0) || (len s <=? i) then (Panicked (IndexOutOfRange i (len s)), m)
    else match nth_error s (Z.to_nat i) with
         | Some a => (Returned a, m)
         | None => (Panicked (IndexOutOfRange i (len s)), m)
         end.

(** ** sign.go *)
Section Bchutil.

Import wire txscript.

(** *** The cryptographic collaborators

    [sha256.Sum256] (crypto/sha256) and the signing interface of [btcec]
    are outside the repository; the development holds for any functions
    of these types. *)
Variable Sum256 : list byte -> Vector.t byte 32.
Variable PrivateKey : Type.
Variable Signature : Type.
(** [key.Sign(hash)]: a signature, or the message of the error. *)
Variable Sign : PrivateKey -> option (list byte) -> Signature + string.
(** [signature.Serialize()] *)
Variable Serialize : Signature -> list byte.

(** [chainhash.DoubleHashB] and [chainhash.DoubleHashH]:
    [sha256(sha256(b))], as a slice and as a [Hash]. *)
Definition DoubleHashB (b : list byte) : list byte :=
  let first := Sum256 b in
  let second := Sum256 (Vector.to_list first) in
  Vector.to_list second.

Definition DoubleHashH (b : list byte) : chainhash.Hash :=
  let first := Sum256 b in
  Sum256 (Vector.to_list first).

(** [txscript.NewTxSigHashes(tx)]: the three digests over all previous
    outpoints, all sequence numbers and all outputs. *)
Definition calcHashPrevOuts (tx : MsgTx) : chainhash.Hash :=
  let b :=
    fold_left
      (fun b in_ =>
         let b := Buffer.Write b (chainhash.bytes (Hash (PreviousOutPoint in_))) in
         Buffer.Write b (LittleEndian.PutUint32 (Index (PreviousOutPoint in_))))
      (tx_TxIn tx) Buffer.empty in
  DoubleHashH (Buffer.Bytes b).

Definition calcHashSequence (tx : MsgTx) : chainhash.Hash :=
  let b :=
    fold_left
      (fun b in_ => Buffer.Write b (LittleEndian.PutUint32 (Sequence in_)))
      (tx_TxIn tx) Buffer.empty in
  DoubleHashH (Buffer.Bytes b).

Definition calcHashOutputs (tx : MsgTx) : chainhash.Hash :=
  let b := fold_left (fun b out => WriteTxOut b out) (tx_TxOut tx) Buffer.empty in
  DoubleHashH (Buffer.Bytes b).

Definition NewTxSigHashes (tx : MsgTx) : TxSigHashes :=
  mkTxSigHashes (calcHashPrevOuts tx) (calcHashSequence tx) (calcHashOutputs tx).

(** Lines 54-129 of [calcBip143SignatureHash]: everything written to the
    buffer [sigHash], in the order of the source; the result is
    [sigHash.Bytes()] as the last line of the function reads it. *)
Definition sigHashPreimage (hashType : SigHashType) (idx amt : Z)
  : M (list byte) :=
  tx <- load m_tx ;;
  sigHashes <- load m_sigHashes ;;
  subScript <- load m_subScript ;;
  let sigHash := Buffer.empty in
  (* the transaction's version number *)
  let bVersion := LittleEndian.PutUint32 (uint32 (Version tx)) in
  let sigHash := Buffer.Write sigHash bVersion in
  let zeroHash := chainhash.zero in
  (* hashPrevOuts, or zeroes under anyone-can-pay *)
  let sigHash :=
    if Z.land hashType SigHashAnyOneCanPay =? 0
    then Buffer.Write sigHash (chainhash.bytes (HashPrevOuts sigHashes))
    else Buffer.Write sigHash (chainhash.bytes zeroHash) in
  (* hashSequence, or zeroes under anyone-can-pay, single or none *)
  let sigHash :=
    if (Z.land hashType SigHashAnyOneCanPay =? 0)
       && negb (Z.land hashType sigHashMask =? SigHashSingle)
       && negb (Z.land hashType sigHashMask =? SigHashNone)
    then Buffer.Write sigHash (chainhash.bytes (HashSequence sigHashes))
    else Buffer.Write sigHash (chainhash.bytes zeroHash) in
  (* the outpoint being spent *)
  txin <- index (tx_TxIn tx) idx ;;
  let sigHash :=
    Buffer.Write sigHash (chainhash.bytes (Hash (PreviousOutPoint txin))) in
  txin <- index (tx_TxIn tx) idx ;;
  let bIndex := LittleEndian.PutUint32 (Index (PreviousOutPoint txin)) in
  let sigHash := Buffer.Write sigHash bIndex in
  (* the script code with its var int length prefix *)
  let sigHash := WriteVarBytes sigHash subScript in
  (* the input amount and the sequence number of the input *)
  let bAmount := LittleEndian.PutUint64 (uint64 amt) in
  let sigHash := Buffer.Write sigHash bAmount in
  txin <- index (tx_TxIn tx) idx ;;
  let bSequence := LittleEndian.PutUint32 (Sequence txin) in
  let sigHash := Buffer.Write sigHash bSequence in
  (* hashOutputs, the hash of the one output, or zeroes *)
  sigHash <-
    (if negb (Z.land hashType SigHashSingle =? SigHashSingle)
        && negb (Z.land hashType SigHashNone =? SigHashNone)
     then ret (Buffer.Write sigHash (chainhash.bytes (HashOutputs sigHashes)))
     else if (Z.land hashType sigHashMask =? SigHashSingle)
             && (idx <? len (tx_TxOut tx))
     then
       txout <- index (tx_TxOut tx) idx ;;
       let b := WriteTxOut Buffer.empty txout in
       ret (Buffer.Write sigHash (DoubleHashB (Buffer.Bytes b)))
     else ret (Buffer.Write sigHash (chainhash.bytes zeroHash))) ;;
  (* the lock time and the sig hash type *)
  let bLockTime := LittleEndian.PutUint32 (LockTime tx) in
  let sigHash := Buffer.Write sigHash bLockTime in
  let bHashType :=
    LittleEndian.PutUint32 (uint32 (Z.lor hashType SigHashForkID)) in
  let sigHash := Buffer.Write sigHash bHashType in
  ret (Buffer.Bytes sigHash).

(** [calcBip143SignatureHash(subScript, sigHashes, hashType, tx, idx, amt)];
    [subScript], [sigHashes] and [tx] are read from the store. A [nil]
    result is [None]. *)
Definition calcBip143SignatureHash (hashType : SigHashType) (idx amt : Z)
  : M (option (list byte)) :=
  tx <- load m_tx ;;
  if idx >? len (tx_TxIn tx) - 1 then
    Printf "calcBip143SignatureHash error: idx %d but %d txins"
           [idx; len (tx_TxIn tx)] ;;;
    ret None
  else
    sigHash <- sigHashPreimage hashType idx amt ;;
    ret (Some (DoubleHashB sigHash)).

(** [RawTxInSignature(tx, idx, subScript, hashType, key, amt)], with [tx]
    and [subScript] read from the store. The result is Go's pair
    [([]byte, error)]: [None] stands for [nil] in both components, and an
    error is its message. *)
Definition RawTxInSignature (idx : Z) (hashType : SigHashType)
           (key : PrivateKey) (amt : Z)
  : M (option (list byte) * option string) :=
  tx <- load m_tx ;;
  new_sigHashes (NewTxSigHashes tx) ;;;
  hash <- calcBip143SignatureHash hashType idx amt ;;
  match Sign key hash with
  | inr err => ret (None, Some ("cannot sign tx input: " ++ err)%string)
  | inl signature =>
      ret (Some (Serialize signature
                   ++ [byte_of_Z (Z.lor hashType SigHashForkID)]),
           None)
  end.

End Bchutil.

(** ** Concrete instances

    Stand-ins for the cryptographic collaborators and a small transaction,
    used to run the definitions on concrete inputs. *)
Module Sample.

Fixpoint tabulate (n : nat) (f : nat -> byte) : Vector.t byte n :=
  match n with
  | O => Vector.nil byte
  | S k => Vector.cons byte (f O) k (tabulate k (fun i => f (S i)))
  end.

(** A 32-byte checksum in the place of SHA-256. *)
Definition Sum256 (b : list byte) : Vector.t byte 32 :=
  let h := fold_left (fun acc x => 33 * acc + Z_of_byte x) b 5381 in
  tabulate 32 (fun i => byte_of_Z (Z.shiftr (h * (2 * Z.of_nat i + 3)) 3)).

Definition PrivateKey := Z.
Definition Signature := list byte.

(** Signs with any key but 0; the signature is the key byte followed by
    the digest it was given ([nil] is the empty digest). *)
Definition Sign (key : PrivateKey) (hash : option (list byte))
  : Signature + string :=
  if key =? 0 then inr "invalid private key"%string
  else inl (byte_of_Z key :: match hash with Some h => h | None => [] end).

Definition Serialize (s : Signature) : list byte := x30 :: s.

Definition hash_of (b : byte) : chainhash.Hash := Vector.const b 32.

Definition in0 : wire.TxIn :=
  wire.mkTxIn (wire.mkOutPoint (hash_of xaa) 0) [] [] 4294967295.
Definition in1 : wire.TxIn :=
  wire.mkTxIn (wire.mkOutPoint (hash_of xbb) 1) [] [] 4294967294.
Definition out0 : wire.TxOut := wire.mkTxOut 5000 [x76; xa9; x88; xac].

(** Two inputs, one output. *)
Definition tx : wire.MsgTx := wire.mkMsgTx 2 [in0; in1] [out0] 0.

Definition sigHashes : txscript.TxSigHashes :=
  txscript.mkTxSigHashes (hash_of x11) (hash_of x22) (hash_of x33).

Definition subScript : list byte := [x51].

Definition mem : Mem := mkMem subScript sigHashes tx [].

(** A second transaction: input 0 has the outpoint and sequence number of
    [in0] and a signature script of its own, the other input and the
    outputs are different. *)
Definition in0' : wire.TxIn :=
  wire.mkTxIn (wire.mkOutPoint (hash_of xaa) 0) [x01; x02] [[x03]] 4294967295.
Definition in1' : wire.TxIn :=
  wire.mkTxIn (wire.mkOutPoint (hash_of xcc) 7) [] [] 0.
Definition tx' : wire.MsgTx :=
  wire.mkMsgTx 2 [in0'; in1'] [wire.mkTxOut 1 []; wire.mkTxOut 2 [x6a]] 0.

Definition mem' : Mem := mkMem subScript sigHashes tx' [].

(** Another cache. *)
Definition sigHashes' : txscript.TxSigHashes :=
  txscript.mkTxSigHashes (hash_of x44) (hash_of x55) (hash_of x66).

End Sample.

(** ** The vocabulary of the specification *)

(** [n] bytes, least significant first: what the specification calls the
    [n]-byte little-endian form of [v]. *)
Fixpoint little_endian (n : nat) (v : Z) : list byte :=
  match n with
  | O => []
  | S k => byte_of_Z v :: little_endian k (v / 256)
  end.

(** The ANYONECANPAY flag is bit 7 (value 0x80) of the sighash type. *)
Definition anyoneCanPay (hashType : Z) : bool := Z.testbit hashType 7.

(** The base type is the value of the low five bits. *)
Definition baseType (hashType : Z) : Z := hashType mod 32.

(** The fork identifier is bit 6 (value 0x40). *)
Definition hasForkId (v : Z) : bool := Z.testbit v 6.

(** Thirty-two zero bytes. *)
Definition zero32 : list byte := repeat x00 32.

(** Reading back a variable-length integer, refusing every encoding that is
    not the shortest one for its value: the canonical form. *)
Definition decodeVarInt (bs : list byte) : option (Z * list byte) :=
  match bs with
  | [] => None
  | d :: rest =>
      let n := if Byte.eqb d xff then 8%nat
               else if Byte.eqb d xfe then 4%nat
               else if Byte.eqb d xfd then 2%nat
               else 0%nat in
      let min := if Byte.eqb d xff then 4294967296
                 else if Byte.eqb d xfe then 65536
                 else if Byte.eqb d xfd then 253
                 else 0 in
      match n with
      | O => Some (Z_of_byte d, rest)
      | _ =>
          if (List.length rest <? n)%nat then None
          else
            let v := le_value (firstn n rest) in
            if v <? min then None else Some (v, skipn n rest)
      end
  end.

(** The preimage as the specification lays it out, field after field. *)
Definition spec_preimage (version : Z) (prevOutsSlot sequenceSlot : list byte)
           (prevHash : list byte) (prevIndex : Z) (scriptCode : list byte)
           (amount sequence : Z) (outputsSlot : list byte)
           (lockTime hashTypeWord : Z) : list byte :=
  little_endian 4 version
    ++ prevOutsSlot
    ++ sequenceSlot
    ++ prevHash ++ little_endian 4 prevIndex
    ++ wire.WriteVarInt Buffer.empty (len scriptCode) ++ scriptCode
    ++ little_endian 8 amount
    ++ little_endian 4 sequence
    ++ outputsSlot
    ++ little_endian 4 lockTime
    ++ little_endian 4 hashTypeWord.

(** The cells of the store that hold the caller's objects: everything but
    standard output. *)
Definition same_inputs (m m' : Mem) : Prop :=
  m_subScript m' = m_subScript m
  /\ m_sigHashes m' = m_sigHashes m
  /\ m_tx m' = m_tx m.

(** A computation that leaves the script code, the hash cache and the
    transaction as it found them, whatever its outcome. *)
Definition preserves {A : Type} (c : M A) : Prop :=
  forall m, same_inputs m (snd (c m)).

(** [idx] selects one of the transaction's inputs. *)
Definition valid_index (m : Mem) (idx : Z) : Prop :=
  0 <= idx < len (wire.tx_TxIn (m_tx m)).

(** The length of the script code is a uint64, as every Go length is. *)
Definition script_fits (m : Mem) : Prop := len (m_subScript m) < 2 ^ 64.

(** The places of the preimage the specification names: the 32 bytes after
    the version, the 32 bytes after those, the 32 bytes before the last
    two words, and the last word. *)
Definition prevOutsSlot (p : list byte) : list byte := subslice 4 36 p.
Definition sequenceSlot (p : list byte) : list byte := subslice 36 68 p.
Definition outputsSlot (p : list byte) : list byte :=
  subslice (len p - 40) (len p - 8) p.
Definition hashTypeWord (p : list byte) : list byte :=
  subslice (len p - 4) (len p) p.

(** The line the bounds check of [calcBip143SignatureHash] prints. *)
Definition diagnostic (idx n : Z) : printed :=
  ("calcBip143SignatureHash error: idx %d but %d txins"%string, [idx; n]).

(** The store with [line] printed after what standard output held. *)
Definition printing (m : Mem) (line : printed) : Mem :=
  mkMem (m_subScript m) (m_sigHashes m) (m_tx m) (m_stdout m ++ [line]).

(** The store with [h] as the hash cache. *)
Definition with_cache (m : Mem) (h : txscript.TxSigHashes) : Mem :=
  mkMem (m_subScript m) h (m_tx m) (m_stdout m).

(** The three digest fields of the preimage as lines 70-74, 79-85 and
    111-120 of [sign.go] select them. *)
Section Fields.

Import wire txscript.
Variable Sum256 : list byte -> Vector.t byte 32.

Definition prevOutsField (hashType : SigHashType) (sigHashes : TxSigHashes)
  : list byte :=
  if Z.land hashType SigHashAnyOneCanPay =? 0
  then chainhash.bytes (HashPrevOuts sigHashes)
  else chainhash.bytes chainhash.zero.

Definition sequenceField (hashType : SigHashType) (sigHashes : TxSigHashes)
  : list byte :=
  if (Z.land hashType SigHashAnyOneCanPay =? 0)
     && negb (Z.land hashType sigHashMask =? SigHashSingle)
     && negb (Z.land hashType sigHashMask =? SigHashNone)
  then chainhash.bytes (HashSequence sigHashes)
  else chainhash.bytes chainhash.zero.

Definition outputsField (hashType : SigHashType) (idx : Z)
           (sigHashes : TxSigHashes) (tx : MsgTx) : list byte :=
  if negb (Z.land hashType SigHashSingle =? SigHashSingle)
     && negb (Z.land hashType SigHashNone =? SigHashNone)
  then chainhash.bytes (HashOutputs sigHashes)
  else if (Z.land hashType sigHashMask =? SigHashSingle)
          && (idx <? len (tx_TxOut tx))
  then match nth_error (tx_TxOut tx) (Z.to_nat idx) with
       | Some txout =>
           DoubleHashB Sum256 (Buffer.Bytes (WriteTxOut Buffer.empty txout))
       | None => chainhash.bytes chainhash.zero
       end
  else chainhash.bytes chainhash.zero.

End Fields.

(** What the digest computation reads of a transaction for the sighash
    type [hashType] and the input [idx]: the version, the lock time, the
    outpoint and the sequence number of that input and, under base type
    SINGLE only, the output at the same index. *)
Definition same_signed_parts (hashType idx : Z) (tx tx' : wire.MsgTx) : Prop :=
  wire.Version tx = wire.Version tx'
  /\ wire.LockTime tx = wire.LockTime tx'
  /\ (exists i i' : wire.TxIn,
         nth_error (wire.tx_TxIn tx) (Z.to_nat idx) = Some i
         /\ nth_error (wire.tx_TxIn tx') (Z.to_nat idx) = Some i'
         /\ wire.PreviousOutPoint i = wire.PreviousOutPoint i'
         /\ wire.Sequence i = wire.Sequence i')
  /\ (baseType hashType = txscript.SigHashSingle ->
      nth_error (wire.tx_TxOut tx) (Z.to_nat idx)
      = nth_error (wire.tx_TxOut tx') (Z.to_nat idx)).

(** A computation that leaves the whole store, standard output included,
    as it found it, whatever its outcome. *)
Definition silent {A : Type} (c : M A) : Prop := forall m, snd (c m) = m.

(** * Properties *)

(** ** The definitions on concrete values *)

Example byte_of_Z_truncates : byte_of_Z 320 = x40.
Proof. reflexivity. Qed.

Example PutUint32_example :
  LittleEndian.PutUint32 4294967294 = [xfe; xff; xff; xff].
Proof. reflexivity. Qed.

Example PutUint32_negative_version :
  LittleEndian.PutUint32 (uint32 (-2)) = [xfe; xff; xff; xff].
Proof. reflexivity. Qed.

Example WriteVarInt_252 : wire.WriteVarInt Buffer.empty 252 = [xfc].
Proof. reflexivity. Qed.

Example WriteVarInt_253 : wire.WriteVarInt Buffer.empty 253 = [xfd; xfd; x00].
Proof. reflexivity. Qed.

Example WriteVarInt_65536 :
  wire.WriteVarInt Buffer.empty 65536 = [xfe; x00; x00; x01; x00].
Proof. reflexivity. Qed.

Example decodeVarInt_rejects_long_form : decodeVarInt [xfd; x05; x00] = None.
Proof. reflexivity. Qed.

Example WriteTxOut_example :
  wire.WriteTxOut Buffer.empty Sample.out0
  = [x88; x13; x00; x00; x00; x00; x00; x00; x04; x76; xa9; x88; xac].
Proof. reflexivity. Qed.

(** Input 0 of the sample under ALL|FORKID (0x41), amount 5000. *)
Example sample_preimage :
  fst (sigHashPreimage Sample.Sum256 65 0 5000 Sample.mem)
  = Returned
      ([x02; x00; x00; x00]
         ++ repeat x11 32 ++ repeat x22 32
         ++ repeat xaa 32 ++ [x00; x00; x00; x00]
         ++ [x01; x51]
         ++ [x88; x13; x00; x00; x00; x00; x00; x00]
         ++ [xff; xff; xff; xff]
         ++ repeat x33 32
         ++ [x00; x00; x00; x00]
         ++ [x41; x00; x00; x00]).
Proof. reflexivity. Qed.

(** SINGLE|FORKID (0x43) on input 1, which has no output beside it: zeroes
    in the outputs slot, and a digest all the same. *)
Example sample_single_without_output :
  exists p d,
    sigHashPreimage Sample.Sum256 67 1 5000 Sample.mem = (Returned p, Sample.mem)
    /\ outputsSlot p = zero32
    /\ calcBip143SignatureHash Sample.Sum256 67 1 5000 Sample.mem
       = (Returned (Some d), Sample.mem).
Proof. do 2 eexists. repeat split; reflexivity. Qed.

(** A sighash type above one byte: the trailer keeps the low eight bits. *)
Example sample_trailer_of_wide_type :
  fst (RawTxInSignature Sample.Sum256 Sample.PrivateKey Sample.Signature
                        Sample.Sign Sample.Serialize 2 256 5 5000 Sample.mem)
  = Returned (Some [x30; x05; x40], None).
Proof. reflexivity. Qed.

(** A key the signer refuses: an error and no bytes. *)
Example sample_signing_failure :
  fst (RawTxInSignature Sample.Sum256 Sample.PrivateKey Sample.Signature
                        Sample.Sign Sample.Serialize 0 65 0 5000 Sample.mem)
  = Returned (None, Some "cannot sign tx input: invalid private key"%string).
Proof. reflexivity. Qed.

(** ** Bytes and little-endian words *)

Lemma Z_of_byte_range (b : byte) : 0 <= Z_of_byte b < 256.
Proof.
  unfold Z_of_byte. pose proof (Byte.to_N_bounded b) as H.
  split; [apply N2Z.is_nonneg|].
  apply N2Z.inj_le in H. simpl in H. lia.
Qed.

Lemma Z_of_byte_of_Z (v : Z) : Z_of_byte (byte_of_Z v) = v mod 256.
Proof.
  unfold Z_of_byte, byte_of_Z.
  pose proof (Z.mod_pos_bound v 256 ltac:(lia)) as Hb.
  destruct (Byte.of_N (Z.to_N (v mod 256))) as [b|] eqn:E.
  - apply Byte.to_of_N in E. rewrite E. apply Z2N.id. lia.
  - apply Byte.of_N_None_iff in E.
    apply N2Z.inj_lt in E. rewrite Z2N.id in E by lia. simpl in E. lia.
Qed.

Lemma Z_of_byte_inj (a b : byte) : Z_of_byte a = Z_of_byte b -> a = b.
Proof.
  unfold Z_of_byte. intros H. apply N2Z.inj in H.
  apply (f_equal Byte.of_N) in H. rewrite !Byte.of_to_N in H. congruence.
Qed.

Lemma byte_of_Z_mod (v : Z) : byte_of_Z (v mod 256) = byte_of_Z v.
Proof.
  apply Z_of_byte_inj. rewrite !Z_of_byte_of_Z. apply Z.mod_mod. lia.
Qed.

Lemma byte_of_Z_eq (a b : Z) : a mod 256 = b mod 256 -> byte_of_Z a = byte_of_Z b.
Proof.
  intros H. rewrite <- (byte_of_Z_mod a), <- (byte_of_Z_mod b). now rewrite H.
Qed.

Lemma little_endian_length (n : nat) (v : Z) : List.length (little_endian n v) = n.
Proof.
  revert v. induction n as [|n IH]; intros v; simpl; [reflexivity|].
  now rewrite IH.
Qed.

(** The bytes of [little_endian n v] denote [v] modulo [256 ^ n]. *)
Lemma le_value_little_endian (n : nat) (v : Z) :
  le_value (little_endian n v) = v mod 256 ^ Z.of_nat n.
Proof.
  revert v. induction n as [|n IH]; intros v.
  - simpl. now rewrite Z.mod_1_r.
  - cbn [little_endian le_value]. rewrite IH, Z_of_byte_of_Z.
    rewrite Nat2Z.inj_succ, Z.pow_succ_r by lia.
    symmetry. apply Z.rem_mul_r; [lia|]. apply Z.pow_pos_nonneg; lia.
Qed.

Lemma shiftr_8_div (v k : Z) : 0 <= k -> Z.shiftr v (k + 8) = Z.shiftr v k / 256.
Proof.
  intros Hk. rewrite <- Z.shiftr_shiftr by lia.
  now rewrite (Z.shiftr_div_pow2 _ 8) by lia.
Qed.

Lemma PutUint16_little_endian (v : Z) :
  LittleEndian.PutUint16 v = little_endian 2 v.
Proof.
  unfold LittleEndian.PutUint16. cbn [little_endian].
  now rewrite (Z.shiftr_div_pow2 v 8) by lia.
Qed.

Lemma PutUint32_little_endian (v : Z) :
  LittleEndian.PutUint32 v = little_endian 4 v.
Proof.
  unfold LittleEndian.PutUint32. cbn [little_endian].
  change 24 with (16 + 8). change 16 with (8 + 8) at 1 2.
  rewrite !shiftr_8_div by lia.
  now rewrite (Z.shiftr_div_pow2 v 8) by lia.
Qed.

Lemma PutUint64_little_endian (v : Z) :
  LittleEndian.PutUint64 v = little_endian 8 v.
Proof.
  unfold LittleEndian.PutUint64. cbn [little_endian].
  replace (Z.shiftr v 56) with (Z.shiftr v 48 / 256)
    by (symmetry; apply (shiftr_8_div v 48); lia).
  replace (Z.shiftr v 48) with (Z.shiftr v 40 / 256)
    by (symmetry; apply (shiftr_8_div v 40); lia).
  replace (Z.shiftr v 40) with (Z.shiftr v 32 / 256)
    by (symmetry; apply (shiftr_8_div v 32); lia).
  replace (Z.shiftr v 32) with (Z.shiftr v 24 / 256)
    by (symmetry; apply (shiftr_8_div v 24); lia).
  replace (Z.shiftr v 24) with (Z.shiftr v 16 / 256)
    by (symmetry; apply (shiftr_8_div v 16); lia).
  replace (Z.shiftr v 16) with (Z.shiftr v 8 / 256)
    by (symmetry; apply (shiftr_8_div v 8); lia).
  now rewrite (Z.shiftr_div_pow2 v 8) by lia.
Qed.

(** Only the low [8 * n] bits of [v] reach [little_endian n v]. *)
Lemma little_endian_mod (n : nat) (v : Z) :
  little_endian n (v mod 256 ^ Z.of_nat n) = little_endian n v.
Proof.
  revert v. induction n as [|n IH]; intros v; [reflexivity|].
  cbn [little_endian].
  rewrite Nat2Z.inj_succ, Z.pow_succ_r by lia.
  assert (Hc : 0 < 256 ^ Z.of_nat n) by (apply Z.pow_pos_nonneg; lia).
  rewrite Z.rem_mul_r by lia.
  pose proof (Z.mod_pos_bound v 256 ltac:(lia)) as Hb.
  f_equal.
  - apply byte_of_Z_eq.
    rewrite (Z.mul_comm 256), Z.mod_add by lia.
    apply Z.mod_mod. lia.
  - replace ((v mod 256 + 256 * ((v / 256) mod 256 ^ Z.of_nat n)) / 256)
      with ((v / 256) mod 256 ^ Z.of_nat n).
    + apply IH.
    + rewrite (Z.add_comm (v mod 256)), (Z.mul_comm 256), Z.div_add_l by lia.
      rewrite (Z.div_small (v mod 256)) by lia. lia.
Qed.

Lemma little_endian_uint32 (v : Z) : little_endian 4 (uint32 v) = little_endian 4 v.
Proof. exact (little_endian_mod 4 v). Qed.

Lemma little_endian_uint64 (v : Z) : little_endian 8 (uint64 v) = little_endian 8 v.
Proof. exact (little_endian_mod 8 v). Qed.

(** ** Bits of the sighash type *)

Lemma land_pow2 (a n : Z) :
  0 <= n -> Z.land a (2 ^ n) = if Z.testbit a n then 2 ^ n else 0.
Proof.
  intros Hn. apply Z.bits_inj'. intros k Hk.
  rewrite Z.land_spec, Z.pow2_bits_eqb by lia.
  destruct (Z.eqb_spec n k) as [->|Hne].
  - destruct (Z.testbit a k); simpl.
    + rewrite Z.pow2_bits_eqb by lia. now rewrite Z.eqb_refl.
    + now rewrite Z.bits_0.
  - rewrite andb_false_r.
    destruct (Z.testbit a n).
    + rewrite Z.pow2_bits_eqb by lia. symmetry. now apply Z.eqb_neq.
    + now rewrite Z.bits_0.
Qed.

(** [hashType&txscript.SigHashAnyOneCanPay == 0] tests the flag. *)
Lemma anyoneCanPay_test (hashType : Z) :
  (Z.land hashType txscript.SigHashAnyOneCanPay =? 0) = negb (anyoneCanPay hashType).
Proof.
  unfold txscript.SigHashAnyOneCanPay, anyoneCanPay.
  change 128 with (2 ^ 7). rewrite land_pow2 by lia.
  now destruct (Z.testbit hashType 7).
Qed.

(** [hashType&sigHashMask] is the base type. *)
Lemma mask_baseType (hashType : Z) :
  Z.land hashType sigHashMask = baseType hashType.
Proof.
  unfold sigHashMask, baseType. change 31 with (Z.ones 5).
  now rewrite Z.land_ones by lia.
Qed.

Lemma baseType_range (hashType : Z) : 0 <= baseType hashType < 32.
Proof. unfold baseType. apply Z.mod_pos_bound. lia. Qed.

(** The two unmasked comparisons of line 111-112 together test bit 1 alone:
    [hashType&3 != 3 && hashType&2 != 2] holds exactly when bit 1 is clear. *)
Lemma outputs_test_bit1 (hashType : Z) :
  negb (Z.land hashType txscript.SigHashSingle =? txscript.SigHashSingle)
  && negb (Z.land hashType txscript.SigHashNone =? txscript.SigHashNone)
  = negb (Z.testbit hashType 1).
Proof.
  unfold txscript.SigHashSingle, txscript.SigHashNone.
  change 2 with (2 ^ 1) at 1. rewrite land_pow2 by lia.
  destruct (Z.testbit hashType 1) eqn:E1; simpl.
  - apply andb_false_r.
  - rewrite andb_true_r. apply negb_true_iff, Z.eqb_neq. intros H.
    apply (f_equal (fun z => Z.testbit z 1)) in H.
    rewrite Z.land_spec, E1 in H. discriminate H.
Qed.

(** Bit 1 of the sighash type is bit 1 of its base type. *)
Lemma bit1_baseType (hashType : Z) :
  Z.testbit hashType 1 = Z.testbit (baseType hashType) 1.
Proof.
  unfold baseType. change 32 with (2 ^ 5).
  now rewrite Z.mod_pow2_bits_low by lia.
Qed.

Lemma lor_forkid_bit (hashType : Z) : hasForkId (Z.lor hashType SigHashForkID) = true.
Proof.
  unfold hasForkId, SigHashForkID. rewrite Z.lor_spec.
  change 64 with (2 ^ 6). rewrite Z.pow2_bits_eqb by lia.
  apply orb_true_r.
Qed.

Lemma lor_forkid_bound (n hashType : Z) :
  7 <= n -> 0 <= hashType < 2 ^ n -> 0 <= Z.lor hashType SigHashForkID < 2 ^ n.
Proof.
  intros Hn [Hlo Hhi]. unfold SigHashForkID.
  assert (Hnn : 0 <= Z.lor hashType 64) by (apply Z.lor_nonneg; lia).
  split; [exact Hnn|].
  assert (Hpos : 0 < Z.lor hashType 64).
  { destruct (Z.eq_dec (Z.lor hashType 64) 0) as [E|E]; [|lia].
    apply Z.lor_eq_0_iff in E. lia. }
  apply Z.log2_lt_pow2; [exact Hpos|].
  rewrite Z.log2_lor by lia.
  apply Z.max_lub_lt; [|change (Z.log2 64) with 6; lia].
  destruct (Z.eq_dec hashType 0) as [->|Hz]; [simpl; lia|].
  apply Z.log2_lt_pow2; lia.
Qed.

(** The low byte of [hashType|SigHashForkID] carries the fork identifier. *)
Lemma trailer_forkid_bit (hashType : Z) :
  hasForkId (Z_of_byte (byte_of_Z (Z.lor hashType SigHashForkID))) = true.
Proof.
  rewrite Z_of_byte_of_Z. unfold hasForkId. change 256 with (2 ^ 8).
  rewrite Z.mod_pow2_bits_low by lia. apply lor_forkid_bit.
Qed.

(** ** Slices and buffers *)

Lemma len_app {A : Type} (a b : list A) : len (a ++ b) = len a + len b.
Proof. unfold len. rewrite length_app. lia. Qed.

Lemma len_nonneg {A : Type} (a : list A) : 0 <= len a.
Proof. unfold len. lia. Qed.

(** The middle of three consecutive pieces, cut out by its offsets. *)
Lemma subslice_mid {A : Type} (pre mid post : list A) :
  subslice (len pre) (len pre + len mid) (pre ++ mid ++ post) = mid.
Proof.
  unfold subslice, len.
  replace (Z.of_nat (List.length pre) + Z.of_nat (List.length mid)
           - Z.of_nat (List.length pre)) with (Z.of_nat (List.length mid)) by lia.
  rewrite !Nat2Z.id.
  rewrite skipn_app, Nat.sub_diag, skipn_all. simpl.
  rewrite firstn_app, Nat.sub_diag, firstn_all. simpl.
  apply app_nil_r.
Qed.

Lemma bytes_length (h : chainhash.Hash) : List.length (chainhash.bytes h) = 32%nat.
Proof. apply Vector.length_to_list. Qed.

Lemma bytes_zero : chainhash.bytes chainhash.zero = zero32.
Proof. reflexivity. Qed.

Lemma WriteVarInt_app (w : Buffer.t) (v : Z) :
  wire.WriteVarInt w v = w ++ wire.WriteVarInt Buffer.empty v.
Proof.
  unfold wire.WriteVarInt, Buffer.Write, Buffer.empty.
  destruct (v <? 253); [reflexivity|].
  destruct (v <=? 65535); [now rewrite <- app_assoc|].
  destruct (v <=? 4294967295); now rewrite <- app_assoc.
Qed.

Lemma WriteVarBytes_app (w : Buffer.t) (bs : list byte) :
  len bs < 2 ^ 64 ->
  wire.WriteVarBytes w bs = w ++ wire.WriteVarInt Buffer.empty (len bs) ++ bs.
Proof.
  intros Hlen. unfold wire.WriteVarBytes, Buffer.Write, uint64.
  rewrite Z.mod_small by (pose proof (len_nonneg bs); lia).
  now rewrite WriteVarInt_app, <- app_assoc.
Qed.

(** ** Indexing *)

Lemma nth_error_in_range {A : Type} (s : list A) (i : Z) :
  0 <= i < len s -> exists a, nth_error s (Z.to_nat i) = Some a.
Proof.
  intros [Hlo Hhi]. unfold len in Hhi.
  destruct (nth_error s (Z.to_nat i)) as [a|] eqn:E; [now exists a|].
  apply nth_error_None in E. lia.
Qed.

Lemma index_in_range {A : Type} (s : list A) (i : Z) (a : A) (m : Mem) :
  0 <= i -> nth_error s (Z.to_nat i) = Some a ->
  index s i m = (Returned a, m).
Proof.
  intros Hlo Hnth. unfold index.
  assert (Hhi : i < len s).
  { unfold len. assert (Z.to_nat i < List.length s)%nat; [|lia].
    apply nth_error_Some. congruence. }
  replace (i <? 0) with false by (symmetry; apply Z.ltb_ge; lia).
  replace (len s <=? i) with false by (symmetry; apply Z.leb_gt; lia).
  simpl. now rewrite Hnth.
Qed.

Lemma index_negative {A : Type} (s : list A) (i : Z) (m : Mem) :
  i < 0 -> index s i m = (Panicked (IndexOutOfRange i (len s)), m).
Proof.
  intros Hneg. unfold index.
  replace (i <? 0) with true by (symmetry; apply Z.ltb_lt; lia).
  reflexivity.
Qed.

(** ** Running the monad *)

Lemma bind_load {A B : Type} (f : Mem -> A) (k : A -> M B) (m : Mem) :
  bind (load f) k m = k (f m) m.
Proof. reflexivity. Qed.

Lemma bind_ret {A B : Type} (a : A) (k : A -> M B) (m : Mem) :
  bind (ret a) k m = k a m.
Proof. reflexivity. Qed.

Lemma bind_returned {A B : Type} (c : M A) (k : A -> M B) (m m' : Mem) (a : A) :
  c m = (Returned a, m') -> bind c k m = k a m'.
Proof. intros H. unfold bind. now rewrite H. Qed.

Lemma bind_panicked {A B : Type} (c : M A) (k : A -> M B) (m m' : Mem) (p : panic) :
  c m = (Panicked p, m') -> bind c k m = (Panicked p, m').
Proof. intros H. unfold bind. now rewrite H. Qed.

(** ** The digest computation on a valid input index *)
Section Digest.

Import wire txscript.
Variable Sum256 : list byte -> Vector.t byte 32.

Lemma DoubleHashB_length (b : list byte) :
  List.length (DoubleHashB Sum256 b) = 32%nat.
Proof. apply Vector.length_to_list. Qed.

Lemma prevOutsField_length hashType sigHashes :
  List.length (prevOutsField hashType sigHashes) = 32%nat.
Proof. unfold prevOutsField. destruct (_ =? _); apply bytes_length. Qed.

Lemma sequenceField_length hashType sigHashes :
  List.length (sequenceField hashType sigHashes) = 32%nat.
Proof. unfold sequenceField. destruct (_ && _); apply bytes_length. Qed.

Lemma outputsField_length hashType idx sigHashes tx :
  List.length (outputsField Sum256 hashType idx sigHashes tx) = 32%nat.
Proof.
  unfold outputsField.
  destruct (_ && _); [apply bytes_length|].
  destruct (_ && _); [|apply bytes_length].
  destruct (nth_error _ _); [apply DoubleHashB_length|apply bytes_length].
Qed.

(** What lines 54-129 leave in the buffer when [idx] selects an input:
    the fields of the specification's layout, with the three digest
    fields as the code selects them. Nothing is printed and the store is
    as before. *)
Lemma sigHashPreimage_in_range (m : Mem) (hashType idx amt : Z) (txin : TxIn) :
  0 <= idx ->
  nth_error (tx_TxIn (m_tx m)) (Z.to_nat idx) = Some txin ->
  len (m_subScript m) < 2 ^ 64 ->
  sigHashPreimage Sum256 hashType idx amt m =
  (Returned
     (spec_preimage
        (Version (m_tx m))
        (prevOutsField hashType (m_sigHashes m))
        (sequenceField hashType (m_sigHashes m))
        (chainhash.bytes (Hash (PreviousOutPoint txin)))
        (Index (PreviousOutPoint txin))
        (m_subScript m)
        amt
        (Sequence txin)
        (outputsField Sum256 hashType idx (m_sigHashes m) (m_tx m))
        (LockTime (m_tx m))
        (Z.lor hashType SigHashForkID)),
   m).
Proof.
  intros Hlo Hnth Hlen.
  unfold sigHashPreimage.
  rewrite !bind_load.
  rewrite (bind_returned _ _ _ _ _ (index_in_range _ _ _ m Hlo Hnth)).
  rewrite (bind_returned _ _ _ _ _ (index_in_range _ _ _ m Hlo Hnth)).
  rewrite (bind_returned _ _ _ _ _ (index_in_range _ _ _ m Hlo Hnth)).
  unfold spec_preimage, prevOutsField, sequenceField, outputsField.
  rewrite (WriteVarBytes_app _ _ Hlen).
  unfold Buffer.Write, Buffer.Bytes, Buffer.empty.
  rewrite !PutUint32_little_endian, PutUint64_little_endian.
  rewrite !little_endian_uint32, little_endian_uint64.
  destruct (Z.land hashType SigHashAnyOneCanPay =? 0);
    destruct (negb (Z.land hashType sigHashMask =? SigHashSingle)
              && negb (Z.land hashType sigHashMask =? SigHashNone)) eqn:Eseq;
    cbn [andb];
    rewrite ?Eseq;
    (destruct (negb (Z.land hashType SigHashSingle =? SigHashSingle)
               && negb (Z.land hashType SigHashNone =? SigHashNone));
     [ rewrite bind_ret; unfold ret; cbn [app]; now rewrite <- !app_assoc | ]);
    (destruct ((Z.land hashType sigHashMask =? SigHashSingle)
               && (idx <? len (tx_TxOut (m_tx m)))) eqn:Esingle;
     [ | rewrite bind_ret; unfold ret; cbn [app]; now rewrite <- !app_assoc ]);
    apply andb_true_iff in Esingle; destruct Esingle as [_ Hout];
    apply Z.ltb_lt in Hout;
    destruct (nth_error_in_range (tx_TxOut (m_tx m)) idx (conj Hlo Hout))
      as [txout Htxout];
    rewrite (bind_returned _ _ _ _ _
               (bind_returned _ _ _ _ _ (index_in_range _ _ _ m Hlo Htxout)));
    rewrite Htxout; unfold ret; cbn [app];
    unfold Buffer.Write, Buffer.Bytes, Buffer.empty;
    now rewrite <- !app_assoc.
Qed.

End Digest.

(** ** The variable-length integer is canonical *)

Lemma byte_eqb_of_Z (v : Z) (b : byte) :
  0 <= v < 256 -> v <> Z_of_byte b -> Byte.eqb (byte_of_Z v) b = false.
Proof.
  intros Hv Hne. destruct (Byte.eqb (byte_of_Z v) b) eqn:E; [|reflexivity].
  apply Byte.byte_dec_bl in E. apply (f_equal Z_of_byte) in E.
  rewrite Z_of_byte_of_Z, Z.mod_small in E by lia. contradiction.
Qed.

Lemma decode_little_endian (n : nat) (v : Z) (rest : list byte) :
  0 <= v < 256 ^ Z.of_nat n ->
  (List.length (little_endian n v ++ rest) <? n)%nat = false
  /\ le_value (firstn n (little_endian n v ++ rest)) = v
  /\ skipn n (little_endian n v ++ rest) = rest.
Proof.
  intros Hv.
  pose proof (little_endian_length n v) as Hl.
  repeat split.
  - apply Nat.ltb_ge. rewrite length_app. lia.
  - rewrite firstn_app, Hl, Nat.sub_diag, firstn_O, app_nil_r.
    rewrite <- Hl at 1. rewrite firstn_all, le_value_little_endian.
    apply Z.mod_small. exact Hv.
  - rewrite skipn_app, Hl, Nat.sub_diag. rewrite <- Hl at 1.
    now rewrite skipn_all.
Qed.

(** [wire.WriteVarInt] produces, for every uint64, an encoding that the
    strict decoder reads back to the same value, leaving what follows. *)
Lemma WriteVarInt_canonical (v : Z) (rest : list byte) :
  0 <= v < 2 ^ 64 ->
  decodeVarInt (wire.WriteVarInt Buffer.empty v ++ rest) = Some (v, rest).
Proof.
  intros Hv. unfold wire.WriteVarInt, Buffer.Write, Buffer.empty.
  destruct (Z.ltb_spec v 253) as [H1|H1].
  - cbn [app decodeVarInt].
    rewrite !byte_eqb_of_Z by (try (vm_compute; lia); lia).
    now rewrite Z_of_byte_of_Z, Z.mod_small by lia.
  - destruct (Z.leb_spec v 65535) as [H2|H2];
      [|destruct (Z.leb_spec v 4294967295) as [H3|H3]].
    + rewrite PutUint16_little_endian. cbn [app].
      destruct (decode_little_endian 2 v rest) as (Hl & Hval & Hrest);
        [change (256 ^ Z.of_nat 2) with 65536; lia|].
      unfold decodeVarInt. change (Byte.eqb xfd xff) with false.
      change (Byte.eqb xfd xfe) with false. change (Byte.eqb xfd xfd) with true.
      cbv iota. rewrite Hl, Hval, Hrest.
      now replace (v <? 253) with false by (symmetry; apply Z.ltb_ge; lia).
    + rewrite PutUint32_little_endian. cbn [app].
      destruct (decode_little_endian 4 v rest) as (Hl & Hval & Hrest);
        [change (256 ^ Z.of_nat 4) with 4294967296; lia|].
      unfold decodeVarInt. change (Byte.eqb xfe xff) with false.
      change (Byte.eqb xfe xfe) with true.
      cbv iota. rewrite Hl, Hval, Hrest.
      now replace (v <? 65536) with false by (symmetry; apply Z.ltb_ge; lia).
    + rewrite PutUint64_little_endian. cbn [app].
      destruct (decode_little_endian 8 v rest) as (Hl & Hval & Hrest);
        [change (256 ^ Z.of_nat 8) with (2 ^ 64); lia|].
      unfold decodeVarInt. change (Byte.eqb xff xff) with true.
      cbv iota. rewrite Hl, Hval, Hrest.
      now replace (v <? 4294967296) with false by (symmetry; apply Z.ltb_ge; lia).
Qed.

(** ** The slots of the specification's layout *)

Lemma subslice_at {A : Type} (pre mid post : list A) (lo hi : Z) :
  lo = len pre -> hi = len pre + len mid ->
  subslice lo hi (pre ++ mid ++ post) = mid.
Proof. intros -> ->. apply subslice_mid. Qed.

Lemma len_little_endian (n : nat) (v : Z) : len (little_endian n v) = Z.of_nat n.
Proof. unfold len. now rewrite little_endian_length. Qed.

Lemma len_32 (s : list byte) : List.length s = 32%nat -> len s = 32.
Proof. unfold len. intros ->. reflexivity. Qed.

Section Slots.

Variables (version : Z) (s1 s2 prevHash : list byte) (prevIndex : Z)
          (scriptCode : list byte) (amount sequence : Z) (s3 : list byte)
          (lockTime word : Z).

Let p := spec_preimage version s1 s2 prevHash prevIndex scriptCode amount
                       sequence s3 lockTime word.

Lemma prevOutsSlot_layout : List.length s1 = 32%nat -> prevOutsSlot p = s1.
Proof.
  intros H1. unfold prevOutsSlot, p, spec_preimage.
  apply subslice_at; rewrite len_little_endian, ?(len_32 _ H1); reflexivity.
Qed.

Lemma sequenceSlot_layout :
  List.length s1 = 32%nat -> List.length s2 = 32%nat -> sequenceSlot p = s2.
Proof.
  intros H1 H2. unfold sequenceSlot, p, spec_preimage.
  rewrite (app_assoc (little_endian 4 version) s1).
  apply subslice_at;
    rewrite len_app, len_little_endian, (len_32 _ H1), ?(len_32 _ H2);
    reflexivity.
Qed.

Lemma layout_tail :
  exists pre, p = pre ++ s3 ++ little_endian 4 lockTime ++ little_endian 4 word.
Proof.
  exists (little_endian 4 version ++ s1 ++ s2 ++ prevHash
            ++ little_endian 4 prevIndex
            ++ wire.WriteVarInt Buffer.empty (len scriptCode) ++ scriptCode
            ++ little_endian 8 amount ++ little_endian 4 sequence).
  unfold p, spec_preimage. now rewrite <- !app_assoc.
Qed.

Lemma outputsSlot_layout : List.length s3 = 32%nat -> outputsSlot p = s3.
Proof.
  intros H3. destruct layout_tail as [pre ->]. unfold outputsSlot.
  apply subslice_at;
    rewrite !len_app, !len_little_endian, (len_32 _ H3); simpl; lia.
Qed.

Lemma hashTypeWord_layout : hashTypeWord p = little_endian 4 word.
Proof.
  destruct layout_tail as [pre ->]. unfold hashTypeWord.
  rewrite (app_assoc s3), (app_assoc pre).
  rewrite <- (app_nil_r (little_endian 4 word)) at 2 3.
  apply subslice_at; rewrite !len_app, !len_little_endian; simpl; lia.
Qed.

End Slots.

(** ** Frame: what a computation leaves untouched *)

Lemma same_inputs_refl (m : Mem) : same_inputs m m.
Proof. now repeat split. Qed.

Lemma same_inputs_trans (m1 m2 m3 : Mem) :
  same_inputs m1 m2 -> same_inputs m2 m3 -> same_inputs m1 m3.
Proof.
  unfold same_inputs. intros (a1 & b1 & c1) (a2 & b2 & c2).
  repeat split; congruence.
Qed.

Lemma preserves_ret {A : Type} (a : A) : preserves (ret a).
Proof. intros m. apply same_inputs_refl. Qed.

Lemma preserves_load {A : Type} (f : Mem -> A) : preserves (load f).
Proof. intros m. apply same_inputs_refl. Qed.

Lemma preserves_Printf (format : string) (args : list Z) :
  preserves (Printf format args).
Proof. intros m. now repeat split. Qed.

Lemma preserves_index {A : Type} (s : list A) (i : Z) : preserves (index s i).
Proof.
  intros m. unfold index.
  destruct ((i <? 0) || (len s <=? i)); [apply same_inputs_refl|].
  destruct (nth_error s (Z.to_nat i)); apply same_inputs_refl.
Qed.

Lemma preserves_bind {A B : Type} (c : M A) (k : A -> M B) :
  preserves c -> (forall a, preserves (k a)) -> preserves (bind c k).
Proof.
  intros Hc Hk m. unfold bind. specialize (Hc m).
  destruct (c m) as [[a|p] m']; simpl in Hc.
  - eapply same_inputs_trans; [exact Hc|apply Hk].
  - exact Hc.
Qed.

Lemma preserves_if {A : Type} (b : bool) (c1 c2 : M A) :
  preserves c1 -> preserves c2 -> preserves (if b then c1 else c2).
Proof. now destruct b. Qed.

Create HintDb frame.
#[export] Hint Resolve preserves_ret preserves_load preserves_Printf
  preserves_index preserves_if : frame.

Ltac frame :=
  repeat first
    [ apply preserves_bind; [|intro]
    | apply preserves_if
    | solve [auto with frame] ].

(** ** The claims *)
Section Claims.

Import wire txscript.
Variable Sum256 : list byte -> Vector.t byte 32.
Variable PrivateKey : Type.
Variable Signature : Type.
Variable Sign : PrivateKey -> option (list byte) -> Signature + string.
Variable Serialize : Signature -> list byte.

Lemma sigHashPreimage_preserves hashType idx amt :
  preserves (sigHashPreimage Sum256 hashType idx amt).
Proof. unfold sigHashPreimage. frame. Qed.

Lemma calcBip143SignatureHash_preserves hashType idx amt :
  preserves (calcBip143SignatureHash Sum256 hashType idx amt).
Proof.
  unfold calcBip143SignatureHash.
  apply preserves_bind; [apply preserves_load|intros tx].
  apply preserves_if.
  - frame.
  - apply preserves_bind; [apply sigHashPreimage_preserves|intros p].
    apply preserves_ret.
Qed.

(** On a valid index the digest is the double hash of the buffer that
    lines 54-129 fill, and the store is left as it was. *)
Lemma calc_in_range (m : Mem) (hashType idx amt : Z) (p : list byte) :
  idx < len (tx_TxIn (m_tx m)) ->
  sigHashPreimage Sum256 hashType idx amt m = (Returned p, m) ->
  calcBip143SignatureHash Sum256 hashType idx amt m
  = (Returned (Some (DoubleHashB Sum256 p)), m).
Proof.
  intros Hhi Hp. unfold calcBip143SignatureHash. rewrite bind_load.
  replace (idx >? len (tx_TxIn (m_tx m)) - 1) with false
    by (symmetry; rewrite Z.gtb_ltb; apply Z.ltb_ge; lia).
  now rewrite (bind_returned _ _ _ _ _ Hp).
Qed.

(** The buffer on a valid index, in the specification's layout. *)
Lemma sigHashPreimage_valid (m : Mem) (hashType idx amt : Z) :
  valid_index m idx -> script_fits m ->
  exists txin : TxIn,
    nth_error (tx_TxIn (m_tx m)) (Z.to_nat idx) = Some txin
    /\ sigHashPreimage Sum256 hashType idx amt m =
       (Returned
          (spec_preimage
             (Version (m_tx m))
             (prevOutsField hashType (m_sigHashes m))
             (sequenceField hashType (m_sigHashes m))
             (chainhash.bytes (Hash (PreviousOutPoint txin)))
             (Index (PreviousOutPoint txin))
             (m_subScript m) amt (Sequence txin)
             (outputsField Sum256 hashType idx (m_sigHashes m) (m_tx m))
             (LockTime (m_tx m))
             (Z.lor hashType SigHashForkID)),
        m).
Proof.
  intros Hidx Hfit.
  destruct (nth_error_in_range _ _ Hidx) as [txin Htxin].
  exists txin. split; [exact Htxin|].
  apply sigHashPreimage_in_range; [apply Hidx|exact Htxin|exact Hfit].
Qed.

(** C2. On a valid input index the digest is the double hash (the hash
    applied to its own output) of one buffer holding, in this order: the
    version as 4 little-endian bytes; a 32-byte previous-outputs field; a
    32-byte sequence-numbers field; the 32-byte hash and the 4-byte
    little-endian index of the outpoint being spent; the script code after
    its length as a canonical variable-length integer; the amount as 8
    little-endian bytes; the input's sequence number as 4 little-endian
    bytes; a 32-byte outputs field; the lock time as 4 little-endian
    bytes; the sighash-type word as 4 little-endian bytes. *)
Theorem digest_is_double_hash_of_layout (m : Mem) (hashType idx amt : Z) :
  valid_index m idx -> script_fits m ->
  exists txin : TxIn,
    nth_error (tx_TxIn (m_tx m)) (Z.to_nat idx) = Some txin
    /\ calcBip143SignatureHash Sum256 hashType idx amt m =
       (Returned
          (Some
             (DoubleHashB Sum256
                (little_endian 4 (Version (m_tx m))
                 ++ prevOutsField hashType (m_sigHashes m)
                 ++ sequenceField hashType (m_sigHashes m)
                 ++ chainhash.bytes (Hash (PreviousOutPoint txin))
                 ++ little_endian 4 (Index (PreviousOutPoint txin))
                 ++ WriteVarInt Buffer.empty (len (m_subScript m))
                 ++ m_subScript m
                 ++ little_endian 8 amt
                 ++ little_endian 4 (Sequence txin)
                 ++ outputsField Sum256 hashType idx (m_sigHashes m) (m_tx m)
                 ++ little_endian 4 (LockTime (m_tx m))
                 ++ little_endian 4 (Z.lor hashType SigHashForkID)))),
        m)
    /\ List.length (prevOutsField hashType (m_sigHashes m)) = 32%nat
    /\ List.length (sequenceField hashType (m_sigHashes m)) = 32%nat
    /\ List.length (chainhash.bytes (Hash (PreviousOutPoint txin))) = 32%nat
    /\ List.length (outputsField Sum256 hashType idx (m_sigHashes m) (m_tx m))
       = 32%nat
    /\ (forall rest : list byte,
           decodeVarInt
             (WriteVarInt Buffer.empty (len (m_subScript m))
                ++ m_subScript m ++ rest)
           = Some (len (m_subScript m), m_subScript m ++ rest))
    /\ (forall b : list byte,
           DoubleHashB Sum256 b
           = Vector.to_list (Sum256 (Vector.to_list (Sum256 b)))).
Proof.
  intros Hidx Hfit.
  destruct (sigHashPreimage_valid m hashType idx amt Hidx Hfit)
    as (txin & Htxin & Hp).
  exists txin. split; [exact Htxin|]. split.
  - apply (calc_in_range m hashType idx amt _ (proj2 Hidx)) in Hp.
    exact Hp.
  - repeat split.
    + apply prevOutsField_length.
    + apply sequenceField_length.
    + apply bytes_length.
    + apply outputsField_length.
    + intros rest. apply WriteVarInt_canonical.
      split; [apply len_nonneg|exact Hfit].
Qed.

(** C6. On a valid input index, the 32 bytes of the preimage that follow
    the version are the cached HashPrevOuts when ANYONECANPAY is not set,
    and 32 zero bytes when it is set. *)
Theorem prevouts_slot_by_anyonecanpay (m : Mem) (hashType idx amt : Z) :
  valid_index m idx -> script_fits m ->
  exists p : list byte,
    sigHashPreimage Sum256 hashType idx amt m = (Returned p, m)
    /\ calcBip143SignatureHash Sum256 hashType idx amt m
       = (Returned (Some (DoubleHashB Sum256 p)), m)
    /\ List.length (prevOutsSlot p) = 32%nat
    /\ prevOutsSlot p =
       if anyoneCanPay hashType then zero32
       else chainhash.bytes (HashPrevOuts (m_sigHashes m)).
Proof.
  intros Hidx Hfit.
  destruct (sigHashPreimage_valid m hashType idx amt Hidx Hfit)
    as (txin & _ & Hp).
  eexists. split; [exact Hp|]. split.
  - exact (calc_in_range m hashType idx amt _ (proj2 Hidx) Hp).
  - rewrite prevOutsSlot_layout by apply prevOutsField_length.
    split; [apply prevOutsField_length|].
    unfold prevOutsField. rewrite anyoneCanPay_test.
    now destruct (anyoneCanPay hashType).
Qed.

(** C7. On a valid input index, the second 32-byte slot of the preimage
    is the cached HashSequence when ANYONECANPAY is not set and the base
    type (the low five bits) is neither SINGLE nor NONE, and 32 zero bytes
    in every other case. *)
Theorem sequence_slot_by_flags (m : Mem) (hashType idx amt : Z) :
  valid_index m idx -> script_fits m ->
  exists p : list byte,
    sigHashPreimage Sum256 hashType idx amt m = (Returned p, m)
    /\ calcBip143SignatureHash Sum256 hashType idx amt m
       = (Returned (Some (DoubleHashB Sum256 p)), m)
    /\ List.length (sequenceSlot p) = 32%nat
    /\ sequenceSlot p =
       if negb (anyoneCanPay hashType)
          && negb (baseType hashType =? SigHashSingle)
          && negb (baseType hashType =? SigHashNone)
       then chainhash.bytes (HashSequence (m_sigHashes m))
       else zero32.
Proof.
  intros Hidx Hfit.
  destruct (sigHashPreimage_valid m hashType idx amt Hidx Hfit)
    as (txin & _ & Hp).
  eexists. split; [exact Hp|]. split.
  - exact (calc_in_range m hashType idx amt _ (proj2 Hidx) Hp).
  - rewrite sequenceSlot_layout
      by (apply prevOutsField_length || apply sequenceField_length).
    split; [apply sequenceField_length|].
    unfold sequenceField. rewrite anyoneCanPay_test, mask_baseType.
    now destruct (_ && _).
Qed.

(** What lines 111-120 put in the outputs slot, for every sighash type:
    the first test looks at bit 1 of the type alone, the second at the
    base type. *)
Lemma outputsField_by_bits (hashType idx : Z) (sigHashes : TxSigHashes) (tx : MsgTx) :
  0 <= idx ->
  outputsField Sum256 hashType idx sigHashes tx =
  if negb (Z.testbit hashType 1) then chainhash.bytes (HashOutputs sigHashes)
  else match nth_error (tx_TxOut tx) (Z.to_nat idx) with
       | Some txout =>
           if baseType hashType =? SigHashSingle
           then DoubleHashB Sum256 (WriteTxOut Buffer.empty txout)
           else zero32
       | None => zero32
       end.
Proof.
  intros Hlo. unfold outputsField.
  rewrite outputs_test_bit1, mask_baseType, bytes_zero.
  destruct (negb (Z.testbit hashType 1)); [reflexivity|].
  destruct (baseType hashType =? SigHashSingle); simpl.
  - destruct (Z.ltb_spec idx (len (tx_TxOut tx))) as [Hin|Hout].
    + now destruct (nth_error (tx_TxOut tx) (Z.to_nat idx)).
    + replace (nth_error (tx_TxOut tx) (Z.to_nat idx)) with (@None TxOut);
        [reflexivity|].
      symmetry. apply nth_error_None. unfold len in Hout. lia.
  - now destruct (nth_error (tx_TxOut tx) (Z.to_nat idx)).
Qed.

(** The outputs slot under the three named base types: with ALL it is the
    cached HashOutputs, with NONE it is 32 zero bytes, and with SINGLE it
    is the double hash of the output at [idx], or 32 zero bytes (and no
    failure) when there is no such output. *)
Lemma outputs_slot_standard_types (m : Mem) (hashType idx amt : Z) :
  valid_index m idx -> script_fits m ->
  exists p : list byte,
    sigHashPreimage Sum256 hashType idx amt m = (Returned p, m)
    /\ (baseType hashType = SigHashAll ->
        outputsSlot p = chainhash.bytes (HashOutputs (m_sigHashes m)))
    /\ (baseType hashType = SigHashNone -> outputsSlot p = zero32)
    /\ (baseType hashType = SigHashSingle ->
        outputsSlot p =
        match nth_error (tx_TxOut (m_tx m)) (Z.to_nat idx) with
        | Some txout => DoubleHashB Sum256 (WriteTxOut Buffer.empty txout)
        | None => zero32
        end).
Proof.
  intros Hidx Hfit.
  destruct (sigHashPreimage_valid m hashType idx amt Hidx Hfit)
    as (txin & _ & Hp).
  eexists. split; [exact Hp|].
  rewrite outputsSlot_layout by apply outputsField_length.
  rewrite outputsField_by_bits by apply Hidx.
  rewrite bit1_baseType.
  repeat split; intros ->; simpl; try reflexivity.
  - now destruct (nth_error _ _).
Qed.

(** C3. The outputs slot is not selected by the base type alone: a sighash
    type whose base type has bit 1 set without being SINGLE or NONE (6, 7,
    10, ...) gets 32 zero bytes in the outputs slot, not the cached
    HashOutputs. *)
Theorem outputs_slot_zero_on_bit1 (m : Mem) (hashType idx amt : Z) :
  valid_index m idx -> script_fits m ->
  Z.testbit hashType 1 = true ->
  baseType hashType <> SigHashSingle ->
  baseType hashType <> SigHashNone ->
  exists p : list byte,
    sigHashPreimage Sum256 hashType idx amt m = (Returned p, m)
    /\ calcBip143SignatureHash Sum256 hashType idx amt m
       = (Returned (Some (DoubleHashB Sum256 p)), m)
    /\ outputsSlot p = zero32.
Proof.
  intros Hidx Hfit Hbit Hsingle Hnone.
  destruct (sigHashPreimage_valid m hashType idx amt Hidx Hfit)
    as (txin & _ & Hp).
  eexists. split; [exact Hp|]. split.
  - exact (calc_in_range m hashType idx amt _ (proj2 Hidx) Hp).
  - rewrite outputsSlot_layout by apply outputsField_length.
    rewrite outputsField_by_bits by apply Hidx.
    rewrite Hbit. simpl.
    apply Z.eqb_neq in Hsingle. rewrite Hsingle.
    now destruct (nth_error _ _).
Qed.

(** The bounds check on an index at or beyond the number of inputs. *)
Lemma calc_out_of_range (m : Mem) (hashType idx amt : Z) :
  len (tx_TxIn (m_tx m)) <= idx ->
  calcBip143SignatureHash Sum256 hashType idx amt m
  = (Returned None, printing m (diagnostic idx (len (tx_TxIn (m_tx m))))).
Proof.
  intros Hidx. unfold calcBip143SignatureHash. rewrite bind_load.
  replace (idx >? len (tx_TxIn (m_tx m)) - 1) with true
    by (symmetry; rewrite Z.gtb_ltb; apply Z.ltb_lt; lia).
  reflexivity.
Qed.

(** C1. An index at or beyond the number of inputs makes the digest
    computation print its diagnostic and return [nil], with no error
    value: the failure is not signalled in the result. *)
Theorem invalid_index_returns_nil (m : Mem) (hashType idx amt : Z) :
  len (tx_TxIn (m_tx m)) <= idx ->
  calcBip143SignatureHash Sum256 hashType idx amt m
  = (Returned None, printing m (diagnostic idx (len (tx_TxIn (m_tx m)))))
  /\ fst (calcBip143SignatureHash Sum256 hashType idx amt m)
     = Returned (@None (list byte)).
Proof.
  intros Hidx. rewrite (calc_out_of_range m hashType idx amt Hidx).
  now split.
Qed.

(** C8. A negative index passes the bounds check, which tests the upper
    bound only, and the first access [tx.TxIn[idx]] panics with an index
    out of range; nothing is printed and no result is returned. *)
Theorem negative_index_panics (m : Mem) (hashType idx amt : Z) :
  idx < 0 ->
  (idx >? len (tx_TxIn (m_tx m)) - 1) = false
  /\ index (tx_TxIn (m_tx m)) idx m
     = (Panicked (IndexOutOfRange idx (len (tx_TxIn (m_tx m)))), m)
  /\ calcBip143SignatureHash Sum256 hashType idx amt m
     = (Panicked (IndexOutOfRange idx (len (tx_TxIn (m_tx m)))), m).
Proof.
  intros Hneg.
  assert (Hcheck : (idx >? len (tx_TxIn (m_tx m)) - 1) = false).
  { rewrite Z.gtb_ltb. apply Z.ltb_ge.
    pose proof (len_nonneg (tx_TxIn (m_tx m))). lia. }
  split; [exact Hcheck|]. split; [now apply index_negative|].
  unfold calcBip143SignatureHash. rewrite bind_load, Hcheck.
  apply bind_panicked. unfold sigHashPreimage. rewrite !bind_load.
  apply bind_panicked. now apply index_negative.
Qed.

(** C10. Whatever the arguments and whatever the outcome (a digest, [nil]
    or a panic), the transaction, the three cached hashes and the script
    code are after the call what they were before it. *)
Theorem digest_never_mutates_inputs (m : Mem) (hashType idx amt : Z) :
  let m' := snd (calcBip143SignatureHash Sum256 hashType idx amt m) in
  Version (m_tx m') = Version (m_tx m)
  /\ tx_TxIn (m_tx m') = tx_TxIn (m_tx m)
  /\ tx_TxOut (m_tx m') = tx_TxOut (m_tx m)
  /\ LockTime (m_tx m') = LockTime (m_tx m)
  /\ HashPrevOuts (m_sigHashes m') = HashPrevOuts (m_sigHashes m)
  /\ HashSequence (m_sigHashes m') = HashSequence (m_sigHashes m)
  /\ HashOutputs (m_sigHashes m') = HashOutputs (m_sigHashes m)
  /\ m_subScript m' = m_subScript m.
Proof.
  intros m'.
  destruct (calcBip143SignatureHash_preserves hashType idx amt m)
    as (Hs & Hc & Ht).
  fold m' in Hs, Hc, Ht. rewrite Hs, Hc, Ht. now repeat split.
Qed.

(** C9. On a valid input index the digest computation returns a 32-byte
    digest and leaves the whole store, standard output included, as it
    found it; the digest depends on the transaction, the index, the
    script code, the sighash type, the amount and the cache only, so a
    second call with these arguments, in the same or in another store,
    returns the same digest. *)
Theorem digest_deterministic (m1 m2 : Mem) (hashType idx amt : Z) :
  valid_index m1 idx -> script_fits m1 -> same_inputs m1 m2 ->
  exists d : list byte,
    List.length d = 32%nat
    /\ calcBip143SignatureHash Sum256 hashType idx amt m1
       = (Returned (Some d), m1)
    /\ calcBip143SignatureHash Sum256 hashType idx amt m2
       = (Returned (Some d), m2)
    /\ (d1 <- calcBip143SignatureHash Sum256 hashType idx amt ;;
        d2 <- calcBip143SignatureHash Sum256 hashType idx amt ;;
        ret (d1, d2)) m1
       = (Returned (Some d, Some d), m1).
Proof.
  intros Hidx Hfit (Hs & Hc & Ht).
  assert (Hidx2 : valid_index m2 idx) by (unfold valid_index; now rewrite Ht).
  assert (Hfit2 : script_fits m2) by (unfold script_fits; now rewrite Hs).
  destruct (sigHashPreimage_valid m1 hashType idx amt Hidx Hfit)
    as (txin & Htxin & Hp1).
  destruct (sigHashPreimage_valid m2 hashType idx amt Hidx2 Hfit2)
    as (txin2 & Htxin2 & Hp2).
  rewrite Ht, Htxin in Htxin2. injection Htxin2 as <-.
  rewrite Hs, Hc, Ht in Hp2.
  pose proof (calc_in_range m1 hashType idx amt _ (proj2 Hidx) Hp1) as H1.
  pose proof (calc_in_range m2 hashType idx amt _ (proj2 Hidx2) Hp2) as H2.
  eexists. split; [apply DoubleHashB_length|].
  split; [exact H1|]. split; [exact H2|].
  rewrite (bind_returned _ _ _ _ _ H1), (bind_returned _ _ _ _ _ H1).
  reflexivity.
Qed.

(** *** The signature producer *)

Lemma RawTxInSignature_returned (m m2 : Mem) (idx hashType amt : Z)
      (key : PrivateKey) (hash : option (list byte)) :
  calcBip143SignatureHash Sum256 hashType idx amt
    (with_cache m (NewTxSigHashes Sum256 (m_tx m))) = (Returned hash, m2) ->
  RawTxInSignature Sum256 PrivateKey Signature Sign Serialize
                   idx hashType key amt m
  = match Sign key hash with
    | inr err =>
        (Returned (None, Some ("cannot sign tx input: " ++ err)%string), m2)
    | inl signature =>
        (Returned (Some (Serialize signature
                           ++ [byte_of_Z (Z.lor hashType SigHashForkID)]),
                   None), m2)
    end.
Proof.
  intros Hcalc. unfold RawTxInSignature. rewrite bind_load.
  rewrite (bind_returned _ _ m (with_cache m (NewTxSigHashes Sum256 (m_tx m))) tt)
    by reflexivity.
  rewrite (bind_returned _ _ _ _ _ Hcalc).
  now destruct (Sign key hash).
Qed.

Lemma RawTxInSignature_panicked (m m2 : Mem) (idx hashType amt : Z)
      (key : PrivateKey) (p : panic) :
  calcBip143SignatureHash Sum256 hashType idx amt
    (with_cache m (NewTxSigHashes Sum256 (m_tx m))) = (Panicked p, m2) ->
  RawTxInSignature Sum256 PrivateKey Signature Sign Serialize
                   idx hashType key amt m
  = (Panicked p, m2).
Proof.
  intros Hcalc. unfold RawTxInSignature. rewrite bind_load.
  rewrite (bind_returned _ _ m (with_cache m (NewTxSigHashes Sum256 (m_tx m))) tt)
    by reflexivity.
  now apply bind_panicked.
Qed.

(** A failure of [key.Sign] comes back as an error that carries its
    message, with no bytes. *)
Lemma signing_failure_is_returned (m m2 : Mem) (idx hashType amt : Z)
      (key : PrivateKey) (hash : option (list byte)) (err : string) :
  calcBip143SignatureHash Sum256 hashType idx amt
    (with_cache m (NewTxSigHashes Sum256 (m_tx m))) = (Returned hash, m2) ->
  Sign key hash = inr err ->
  RawTxInSignature Sum256 PrivateKey Signature Sign Serialize
                   idx hashType key amt m
  = (Returned (None, Some ("cannot sign tx input: " ++ err)%string), m2).
Proof.
  intros Hcalc Hsign.
  rewrite (RawTxInSignature_returned _ _ _ _ _ _ _ Hcalc). now rewrite Hsign.
Qed.

(** A call that returns gives either bytes and no error, or an error and
    no bytes. *)
Lemma signature_all_or_nothing (m m' : Mem) (idx hashType amt : Z)
      (key : PrivateKey) (out : option (list byte)) (err : option string) :
  RawTxInSignature Sum256 PrivateKey Signature Sign Serialize
                   idx hashType key amt m = (Returned (out, err), m') ->
  (exists bs, out = Some bs /\ err = None)
  \/ (exists e, out = None /\ err = Some e).
Proof.
  destruct (calcBip143SignatureHash Sum256 hashType idx amt
              (with_cache m (NewTxSigHashes Sum256 (m_tx m))))
    as [[hash|p] m2] eqn:Hcalc.
  - rewrite (RawTxInSignature_returned _ _ _ _ _ _ _ Hcalc).
    destruct (Sign key hash) as [signature|e]; intros H;
      injection H as <- <- _; [left|right]; eexists; split; reflexivity.
  - rewrite (RawTxInSignature_panicked _ _ _ _ _ _ _ Hcalc). discriminate.
Qed.

(** C5. With an index at or beyond the number of inputs the signature
    producer does not fail: it signs the [nil] digest, and when [key.Sign]
    accepts it the caller receives signature bytes and a [nil] error. The
    only trace of the invalid index is the line on standard output. *)
Theorem invalid_index_is_signed (m : Mem) (idx hashType amt : Z)
        (key : PrivateKey) (signature : Signature) :
  len (tx_TxIn (m_tx m)) <= idx ->
  Sign key None = inl signature ->
  RawTxInSignature Sum256 PrivateKey Signature Sign Serialize
                   idx hashType key amt m
  = (Returned (Some (Serialize signature
                       ++ [byte_of_Z (Z.lor hashType SigHashForkID)]),
               None),
     printing (with_cache m (NewTxSigHashes Sum256 (m_tx m)))
              (diagnostic idx (len (tx_TxIn (m_tx m))))).
Proof.
  intros Hidx Hsign.
  pose proof (calc_out_of_range
                (with_cache m (NewTxSigHashes Sum256 (m_tx m)))
                hashType idx amt Hidx) as Hcalc.
  rewrite (RawTxInSignature_returned m _ idx hashType amt key None Hcalc).
  now rewrite Hsign.
Qed.

(** C4, as amended. For every sighash type (a uint32), with or without
    the fork identifier, the 0x40 bit is forced on in both places: the last
    word of the digest preimage is the 4-byte little-endian form of
    [hashType | 0x40], and a signature that [RawTxInSignature] returns ends
    in one byte equal to the low eight bits of [hashType | 0x40], that is
    [(hashType | 0x40) mod 256]; it is [hashType | 0x40] itself for every
    type below 256. (As first stated, with the trailer equal to
    [hashType | 0x40] for every type, the claim fails on types of 256 and
    more.) *)
Theorem forkid_forced_in_word_and_trailer
        (m m2 : Mem) (idx hashType amt : Z) (key : PrivateKey)
        (hash : option (list byte)) (signature : Signature) :
  valid_index m idx -> script_fits m ->
  0 <= hashType < 2 ^ 32 ->
  calcBip143SignatureHash Sum256 hashType idx amt
    (with_cache m (NewTxSigHashes Sum256 (m_tx m))) = (Returned hash, m2) ->
  Sign key hash = inl signature ->
  (exists p : list byte,
      sigHashPreimage Sum256 hashType idx amt m = (Returned p, m)
      /\ calcBip143SignatureHash Sum256 hashType idx amt m
         = (Returned (Some (DoubleHashB Sum256 p)), m)
      /\ hashTypeWord p = little_endian 4 (Z.lor hashType SigHashForkID)
      /\ le_value (hashTypeWord p) = Z.lor hashType SigHashForkID
      /\ hasForkId (le_value (hashTypeWord p)) = true)
  /\ RawTxInSignature Sum256 PrivateKey Signature Sign Serialize
                      idx hashType key amt m
     = (Returned (Some (Serialize signature
                          ++ [byte_of_Z (Z.lor hashType SigHashForkID)]),
                  None), m2)
  /\ Z_of_byte (byte_of_Z (Z.lor hashType SigHashForkID))
     = Z.lor hashType SigHashForkID mod 256
  /\ hasForkId (Z_of_byte (byte_of_Z (Z.lor hashType SigHashForkID))) = true
  /\ (hashType < 256 ->
      Z_of_byte (byte_of_Z (Z.lor hashType SigHashForkID))
      = Z.lor hashType SigHashForkID).
Proof.
  intros Hidx Hfit Hty Hcalc Hsign. split; [|split; [|split; [|split]]].
  - destruct (sigHashPreimage_valid m hashType idx amt Hidx Hfit)
      as (txin & _ & Hp).
    eexists. split; [exact Hp|]. split.
    + exact (calc_in_range m hashType idx amt _ (proj2 Hidx) Hp).
    + rewrite hashTypeWord_layout, le_value_little_endian.
      change (256 ^ Z.of_nat 4) with (2 ^ 32).
      rewrite Z.mod_small by (apply lor_forkid_bound; lia).
      repeat split. apply lor_forkid_bit.
  - rewrite (RawTxInSignature_returned _ _ _ _ _ _ _ Hcalc).
    now rewrite Hsign.
  - apply Z_of_byte_of_Z.
  - apply trailer_forkid_bit.
  - intros Hbyte. rewrite Z_of_byte_of_Z. apply Z.mod_small.
    change 256 with (2 ^ 8). apply lor_forkid_bound; lia.
Qed.

End Claims.

(** ** The theorems at concrete inputs

    The sample transaction has two inputs and one output; the stand-ins of
    [Sample] take the place of SHA-256 and of the signer. *)

Ltac sample_index := unfold valid_index, len; simpl; lia.
Ltac sample_script := unfold script_fits, len; simpl; lia.

(** Index 2 of a two-input transaction: [nil] and one printed line. *)
Lemma invalid_index_returns_nil_witness :
  len (wire.tx_TxIn (m_tx Sample.mem)) <= 2
  /\ calcBip143SignatureHash Sample.Sum256 65 2 5000 Sample.mem
     = (Returned None, printing Sample.mem (diagnostic 2 2)).
Proof.
  split; [unfold len; simpl; lia|].
  apply (invalid_index_returns_nil Sample.Sum256 Sample.mem 65 2 5000).
  unfold len; simpl; lia.
Defined.

(** Input 1 under ALL|FORKID: the digest is the double hash of a 158-byte
    buffer that starts with the version 2. *)
Lemma digest_is_double_hash_of_layout_witness :
  valid_index Sample.mem 1 /\ script_fits Sample.mem
  /\ exists p : list byte,
       calcBip143SignatureHash Sample.Sum256 65 1 5000 Sample.mem
       = (Returned (Some (DoubleHashB Sample.Sum256 p)), Sample.mem)
       /\ List.length p = 158%nat
       /\ firstn 4 p = [x02; x00; x00; x00].
Proof.
  split; [sample_index|]. split; [sample_script|].
  destruct (digest_is_double_hash_of_layout Sample.Sum256 Sample.mem 65 1 5000)
    as (txin & Htxin & Hcalc & _); [sample_index|sample_script|].
  injection Htxin as <-.
  eexists. split; [exact Hcalc|]. split; reflexivity.
Defined.

(** Base type 6 with the fork identifier: neither SINGLE nor NONE, bit 1
    set; the outputs slot is zero although the cache holds another value. *)
Lemma outputs_slot_zero_on_bit1_witness :
  valid_index Sample.mem 0 /\ script_fits Sample.mem
  /\ Z.testbit 70 1 = true
  /\ baseType 70 <> txscript.SigHashSingle
  /\ baseType 70 <> txscript.SigHashNone
  /\ chainhash.bytes (txscript.HashOutputs (m_sigHashes Sample.mem)) <> zero32
  /\ exists p : list byte,
       sigHashPreimage Sample.Sum256 70 0 5000 Sample.mem
       = (Returned p, Sample.mem)
       /\ outputsSlot p = zero32.
Proof.
  split; [sample_index|]. split; [sample_script|].
  split; [reflexivity|].
  split; [vm_compute; discriminate|]. split; [vm_compute; discriminate|].
  split; [vm_compute; discriminate|].
  destruct (outputs_slot_zero_on_bit1 Sample.Sum256 Sample.mem 70 0 5000)
    as (p & Hp & _ & Hslot);
    [sample_index|sample_script|reflexivity
    |vm_compute; discriminate|vm_compute; discriminate|].
  exists p. split; [exact Hp|exact Hslot].
Defined.

(** ALL without the fork identifier, signed with key 5: the preimage ends
    in 41 00 00 00 and the signature in the byte 0x41. *)
Lemma forkid_forced_in_word_and_trailer_witness :
  valid_index Sample.mem 0 /\ script_fits Sample.mem /\ 0 <= 1 < 2 ^ 32
  /\ (exists p : list byte,
         sigHashPreimage Sample.Sum256 1 0 5000 Sample.mem
         = (Returned p, Sample.mem)
         /\ hashTypeWord p = [x41; x00; x00; x00])
  /\ exists (bs : list byte) (m2 : Mem),
       RawTxInSignature Sample.Sum256 Sample.PrivateKey Sample.Signature
                        Sample.Sign Sample.Serialize 0 1 5 5000 Sample.mem
       = (Returned (Some (bs ++ [x41]), None), m2).
Proof.
  split; [sample_index|]. split; [sample_script|]. split; [lia|].
  edestruct (forkid_forced_in_word_and_trailer
               Sample.Sum256 Sample.PrivateKey Sample.Signature
               Sample.Sign Sample.Serialize Sample.mem
               (with_cache Sample.mem
                  (NewTxSigHashes Sample.Sum256 (m_tx Sample.mem)))
               0 1 5000 5)
    as ((p & Hp & _ & Hword & _) & Hsig & _);
    [sample_index|sample_script|lia|reflexivity|reflexivity|].
  split.
  - exists p. split; [exact Hp|exact Hword].
  - eexists. eexists. exact Hsig.
Defined.

(** C4 as first stated fails at the sighash type 0x100 on a valid index:
    the signature's trailer is the byte 0x40, not [0x100 | 0x40 = 0x140],
    while the word in the preimage does hold 0x140. *)
Lemma trailer_of_wide_type_counterexample :
  0 <= 256 < 2 ^ 32 /\ valid_index Sample.mem 0 /\ script_fits Sample.mem
  /\ exists (body p : list byte) (b : byte) (m' : Mem),
       RawTxInSignature Sample.Sum256 Sample.PrivateKey Sample.Signature
                        Sample.Sign Sample.Serialize 0 256 5 5000 Sample.mem
       = (Returned (Some (body ++ [b]), None), m')
       /\ sigHashPreimage Sample.Sum256 256 0 5000 m' = (Returned p, m')
       /\ le_value (hashTypeWord p) = Z.lor 256 SigHashForkID
       /\ Z.lor 256 SigHashForkID = 320
       /\ Z_of_byte b = 64
       /\ Z_of_byte b <> Z.lor 256 SigHashForkID.
Proof.
  split; [lia|]. split; [sample_index|]. split; [sample_script|].
  do 4 eexists.
  split; [reflexivity|]. split; [reflexivity|].
  split; [reflexivity|]. split; [reflexivity|]. split; [reflexivity|].
  vm_compute. discriminate.
Qed.

(** Index 2 of a two-input transaction, key 5: a signature over the [nil]
    digest comes back with a [nil] error. *)
Lemma invalid_index_is_signed_witness :
  len (wire.tx_TxIn (m_tx Sample.mem)) <= 2
  /\ Sample.Sign 5 None = inl [x05]
  /\ fst (RawTxInSignature Sample.Sum256 Sample.PrivateKey Sample.Signature
                           Sample.Sign Sample.Serialize 2 65 5 5000 Sample.mem)
     = Returned (Some [x30; x05; x41], None).
Proof.
  split; [unfold len; simpl; lia|]. split; [reflexivity|].
  rewrite (invalid_index_is_signed
             Sample.Sum256 Sample.PrivateKey Sample.Signature
             Sample.Sign Sample.Serialize Sample.mem 2 65 5000 5 [x05]).
  - reflexivity.
  - unfold len; simpl; lia.
  - reflexivity.
Defined.

(** ALL|ANYONECANPAY|FORKID: the previous-outputs slot is zero. *)
Lemma prevouts_slot_by_anyonecanpay_witness :
  valid_index Sample.mem 0 /\ script_fits Sample.mem
  /\ exists p : list byte,
       sigHashPreimage Sample.Sum256 193 0 5000 Sample.mem
       = (Returned p, Sample.mem)
       /\ prevOutsSlot p = zero32.
Proof.
  split; [sample_index|]. split; [sample_script|].
  destruct (prevouts_slot_by_anyonecanpay Sample.Sum256 Sample.mem 193 0 5000)
    as (p & Hp & _ & _ & Hslot); [sample_index|sample_script|].
  exists p. split; [exact Hp|exact Hslot].
Defined.

(** ALL|FORKID: the sequence-numbers slot is the cached HashSequence. *)
Lemma sequence_slot_by_flags_witness :
  valid_index Sample.mem 0 /\ script_fits Sample.mem
  /\ exists p : list byte,
       sigHashPreimage Sample.Sum256 65 0 5000 Sample.mem
       = (Returned p, Sample.mem)
       /\ sequenceSlot p
          = chainhash.bytes (txscript.HashSequence (m_sigHashes Sample.mem)).
Proof.
  split; [sample_index|]. split; [sample_script|].
  destruct (sequence_slot_by_flags Sample.Sum256 Sample.mem 65 0 5000)
    as (p & Hp & _ & _ & Hslot); [sample_index|sample_script|].
  exists p. split; [exact Hp|exact Hslot].
Defined.

(** Index -1: the check lets it through and the access panics. *)
Lemma negative_index_panics_witness :
  -1 < 0
  /\ calcBip143SignatureHash Sample.Sum256 65 (-1) 5000 Sample.mem
     = (Panicked (IndexOutOfRange (-1) 2), Sample.mem).
Proof.
  split; [lia|].
  apply (negative_index_panics Sample.Sum256 Sample.mem 65 (-1) 5000). lia.
Defined.

(** Two stores that differ in what was printed before: the same digest. *)
Lemma digest_deterministic_witness :
  valid_index Sample.mem 1 /\ script_fits Sample.mem
  /\ same_inputs Sample.mem (printing Sample.mem (diagnostic 7 2))
  /\ exists d : list byte,
       calcBip143SignatureHash Sample.Sum256 65 1 5000 Sample.mem
       = (Returned (Some d), Sample.mem)
       /\ calcBip143SignatureHash Sample.Sum256 65 1 5000
            (printing Sample.mem (diagnostic 7 2))
          = (Returned (Some d), printing Sample.mem (diagnostic 7 2)).
Proof.
  split; [sample_index|]. split; [sample_script|].
  split; [now repeat split|].
  destruct (digest_deterministic Sample.Sum256 Sample.mem
              (printing Sample.mem (diagnostic 7 2)) 65 1 5000)
    as (d & _ & H1 & H2 & _); [sample_index|sample_script|now repeat split|].
  exists d. split; [exact H1|exact H2].
Defined.


(** * Further properties of [sign.go] *)

(** ** Bits that [| SigHashForkID] leaves alone *)

Lemma land_lor_forkid (hashType c : Z) :
  Z.land SigHashForkID c = 0 ->
  Z.land (Z.lor hashType SigHashForkID) c = Z.land hashType c.
Proof.
  intros H. now rewrite Z.land_lor_distr_l, H, Z.lor_0_r.
Qed.

Lemma lor_forkid_twice (hashType : Z) :
  Z.lor (Z.lor hashType SigHashForkID) SigHashForkID
  = Z.lor hashType SigHashForkID.
Proof. now rewrite <- Z.lor_assoc, Z.lor_diag. Qed.

Lemma testbit_trailer (hashType i : Z) :
  0 <= i < 8 -> i <> 6 ->
  Z.testbit (Z_of_byte (byte_of_Z (Z.lor hashType SigHashForkID))) i
  = Z.testbit hashType i.
Proof.
  intros Hi Hne. rewrite Z_of_byte_of_Z. change 256 with (2 ^ 8).
  rewrite Z.mod_pow2_bits_low by lia.
  rewrite Z.lor_spec. unfold SigHashForkID. change 64 with (2 ^ 6).
  rewrite Z.pow2_bits_eqb by lia.
  replace (6 =? i) with false by (symmetry; apply Z.eqb_neq; lia).
  apply orb_false_r.
Qed.

Lemma baseType_trailer (hashType : Z) :
  baseType (Z_of_byte (byte_of_Z (Z.lor hashType SigHashForkID)))
  = baseType hashType.
Proof.
  unfold baseType. change 32 with (2 ^ 5).
  apply Z.bits_inj'. intros k Hk.
  destruct (Z.ltb_spec k 5) as [Hlt|Hge].
  - rewrite !Z.mod_pow2_bits_low by lia. apply testbit_trailer; lia.
  - now rewrite !Z.mod_pow2_bits_high by lia.
Qed.

(** ** Lists *)

Lemma app_inj_length {A : Type} (a b x y : list A) :
  List.length a = List.length b -> a ++ x = b ++ y -> a = b /\ x = y.
Proof.
  revert b. induction a as [|h a IH]; intros [|h' b] Hlen Heq;
    simpl in Hlen; try discriminate.
  - now split.
  - simpl in Heq. injection Heq as -> Heq. injection Hlen as Hlen.
    destruct (IH b Hlen Heq) as [-> ->]. now split.
Qed.

Lemma some_pair_inj {A B : Type} (a c : A) (b d : B) :
  Some (a, b) = Some (c, d) -> a = c /\ b = d.
Proof. intros H. injection H as -> ->. now split. Qed.

Lemma app_one_neq {A : Type} (l : list A) (x : A) : l ++ [x] <> l.
Proof.
  intros H. apply (f_equal (@List.length A)) in H.
  rewrite length_app in H. simpl in H. lia.
Qed.

Lemma little_endian_inj (n : nat) (v w : Z) :
  little_endian n v = little_endian n w ->
  v mod 256 ^ Z.of_nat n = w mod 256 ^ Z.of_nat n.
Proof.
  intros H. apply (f_equal le_value) in H.
  now rewrite !le_value_little_endian in H.
Qed.

(** ** Computations that touch nothing *)

Lemma silent_ret {A : Type} (a : A) : silent (ret a).
Proof. intros m. reflexivity. Qed.

Lemma silent_load {A : Type} (f : Mem -> A) : silent (load f).
Proof. intros m. reflexivity. Qed.

Lemma silent_index {A : Type} (s : list A) (i : Z) : silent (index s i).
Proof.
  intros m. unfold index.
  destruct ((i <? 0) || (len s <=? i)); [reflexivity|].
  now destruct (nth_error s (Z.to_nat i)).
Qed.

Lemma silent_bind {A B : Type} (c : M A) (k : A -> M B) :
  silent c -> (forall a, silent (k a)) -> silent (bind c k).
Proof.
  intros Hc Hk m. unfold bind. specialize (Hc m).
  destruct (c m) as [[a|p] m']; simpl in Hc; subst m'; [apply Hk|reflexivity].
Qed.

Lemma silent_if {A : Type} (b : bool) (c1 c2 : M A) :
  silent c1 -> silent c2 -> silent (if b then c1 else c2).
Proof. now destruct b. Qed.

Section Further.

Import wire txscript.
Variable Sum256 : list byte -> Vector.t byte 32.
Variable PrivateKey : Type.
Variable Signature : Type.
Variable Sign : PrivateKey -> option (list byte) -> Signature + string.
Variable Serialize : Signature -> list byte.

Lemma sigHashPreimage_forkid (hashType idx amt : Z) :
  sigHashPreimage Sum256 (Z.lor hashType SigHashForkID) idx amt
  = sigHashPreimage Sum256 hashType idx amt.
Proof.
  unfold sigHashPreimage.
  rewrite !land_lor_forkid by reflexivity.
  now rewrite lor_forkid_twice.
Qed.

Lemma calcBip143SignatureHash_forkid (hashType idx amt : Z) :
  calcBip143SignatureHash Sum256 (Z.lor hashType SigHashForkID) idx amt
  = calcBip143SignatureHash Sum256 hashType idx amt.
Proof.
  unfold calcBip143SignatureHash. now rewrite sigHashPreimage_forkid.
Qed.

(** X1. Setting the fork identifier in the sighash type before the call
    changes nothing: the digest computation and the signature producer
    behave on [hashType | SigHashForkID] exactly as on [hashType] (same
    result, same store), for every index and every store. *)
Theorem forkid_already_set_is_same_call
        (m : Mem) (hashType idx amt : Z) (key : PrivateKey) :
  calcBip143SignatureHash Sum256 (Z.lor hashType SigHashForkID) idx amt m
  = calcBip143SignatureHash Sum256 hashType idx amt m
  /\ RawTxInSignature Sum256 PrivateKey Signature Sign Serialize
                      idx (Z.lor hashType SigHashForkID) key amt m
     = RawTxInSignature Sum256 PrivateKey Signature Sign Serialize
                        idx hashType key amt m.
Proof.
  split.
  - now rewrite calcBip143SignatureHash_forkid.
  - unfold RawTxInSignature.
    now rewrite calcBip143SignatureHash_forkid, lor_forkid_twice.
Qed.

(** X2. The digest computation returns [nil] exactly when the index is at
    or beyond the number of inputs, and it prints exactly then: standard
    output is unchanged if and only if [idx < len(tx.TxIn)]. *)
Theorem nil_digest_iff_index_too_large (m : Mem) (hashType idx amt : Z) :
  script_fits m ->
  (fst (calcBip143SignatureHash Sum256 hashType idx amt m) = Returned None
   <-> len (tx_TxIn (m_tx m)) <= idx)
  /\ (m_stdout (snd (calcBip143SignatureHash Sum256 hashType idx amt m))
      = m_stdout m
      <-> idx < len (tx_TxIn (m_tx m))).
Proof.
  intros Hfit.
  destruct (Z.le_gt_cases (len (tx_TxIn (m_tx m))) idx) as [Hbig|Hsmall].
  - rewrite (calc_out_of_range Sum256 m hashType idx amt Hbig). simpl.
    split; split; intros H; try reflexivity; try exact Hbig.
    + exfalso. exact (app_one_neq _ _ H).
    + lia.
  - destruct (Z.lt_ge_cases idx 0) as [Hneg|Hpos].
    + assert (Hpanic :
               calcBip143SignatureHash Sum256 hashType idx amt m
               = (Panicked (IndexOutOfRange idx (len (tx_TxIn (m_tx m)))), m)).
      { unfold calcBip143SignatureHash. rewrite bind_load.
        replace (idx >? len (tx_TxIn (m_tx m)) - 1) with false
          by (symmetry; rewrite Z.gtb_ltb; apply Z.ltb_ge; lia).
        apply bind_panicked. unfold sigHashPreimage. rewrite !bind_load.
        apply bind_panicked. now apply index_negative. }
      rewrite Hpanic. simpl.
      split; split; intros H; try reflexivity; try exact Hsmall.
      * discriminate H.
      * lia.
    + destruct (sigHashPreimage_valid Sum256 m hashType idx amt
                  (conj Hpos Hsmall) Hfit) as (txin & _ & Hp).
      rewrite (calc_in_range Sum256 m hashType idx amt _ Hsmall Hp). simpl.
      split; split; intros H; try reflexivity; try exact Hsmall.
      * discriminate H.
      * lia.
Qed.

(** X3. The outputs slot for every sighash type, as lines 111-120 fill it:
    the cached HashOutputs when bit 1 of the type is clear; otherwise the
    double hash of the serialized output at [idx] when the base type is
    SINGLE and that output exists; otherwise 32 zero bytes. *)
Theorem outputs_slot_for_every_type (m : Mem) (hashType idx amt : Z) :
  valid_index m idx -> script_fits m ->
  exists p : list byte,
    sigHashPreimage Sum256 hashType idx amt m = (Returned p, m)
    /\ calcBip143SignatureHash Sum256 hashType idx amt m
       = (Returned (Some (DoubleHashB Sum256 p)), m)
    /\ outputsSlot p =
       if negb (Z.testbit hashType 1)
       then chainhash.bytes (HashOutputs (m_sigHashes m))
       else match nth_error (tx_TxOut (m_tx m)) (Z.to_nat idx) with
            | Some txout =>
                if baseType hashType =? SigHashSingle
                then DoubleHashB Sum256 (WriteTxOut Buffer.empty txout)
                else zero32
            | None => zero32
            end.
Proof.
  intros Hidx Hfit.
  destruct (sigHashPreimage_valid Sum256 m hashType idx amt Hidx Hfit)
    as (txin & _ & Hp).
  eexists. split; [exact Hp|]. split.
  - exact (calc_in_range Sum256 m hashType idx amt _ (proj2 Hidx) Hp).
  - rewrite outputsSlot_layout by apply outputsField_length.
    apply outputsField_by_bits. apply Hidx.
Qed.

Lemma len_WriteVarInt (v : Z) :
  len (WriteVarInt Buffer.empty v) =
  if v <? 253 then 1 else if v <=? 65535 then 3
  else if v <=? 4294967295 then 5 else 9.
Proof.
  unfold WriteVarInt.
  destruct (v <? 253); [reflexivity|].
  destruct (v <=? 65535); [reflexivity|].
  destruct (v <=? 4294967295); reflexivity.
Qed.

(** X4. On a valid index the hashed buffer has 156 bytes of fixed-width
    fields plus the script code and its length prefix of 1, 3, 5 or 9
    bytes; with a script code shorter than 253 bytes that is
    [157 + len(subScript)] bytes. *)
Theorem preimage_length (m : Mem) (hashType idx amt : Z) :
  valid_index m idx -> script_fits m ->
  exists p : list byte,
    sigHashPreimage Sum256 hashType idx amt m = (Returned p, m)
    /\ len p = 156 + len (WriteVarInt Buffer.empty (len (m_subScript m)))
               + len (m_subScript m)
    /\ 157 + len (m_subScript m) <= len p <= 165 + len (m_subScript m)
    /\ (len (m_subScript m) < 253 -> len p = 157 + len (m_subScript m)).
Proof.
  intros Hidx Hfit.
  destruct (sigHashPreimage_valid Sum256 m hashType idx amt Hidx Hfit)
    as (txin & _ & Hp).
  eexists. split; [exact Hp|].
  assert (Hlen :
            len (spec_preimage
                   (Version (m_tx m))
                   (prevOutsField hashType (m_sigHashes m))
                   (sequenceField hashType (m_sigHashes m))
                   (chainhash.bytes (Hash (PreviousOutPoint txin)))
                   (Index (PreviousOutPoint txin))
                   (m_subScript m) amt (Sequence txin)
                   (outputsField Sum256 hashType idx (m_sigHashes m) (m_tx m))
                   (LockTime (m_tx m))
                   (Z.lor hashType SigHashForkID))
            = 156 + len (WriteVarInt Buffer.empty (len (m_subScript m)))
              + len (m_subScript m)).
  { unfold spec_preimage. rewrite !len_app, !len_little_endian.
    rewrite (len_32 _ (prevOutsField_length hashType (m_sigHashes m))).
    rewrite (len_32 _ (sequenceField_length hashType (m_sigHashes m))).
    rewrite (len_32 _ (bytes_length (Hash (PreviousOutPoint txin)))).
    rewrite (len_32 _ (outputsField_length Sum256 hashType idx
                         (m_sigHashes m) (m_tx m))).
    change (Z.of_nat 4) with 4. change (Z.of_nat 8) with 8. lia. }
  rewrite Hlen, len_WriteVarInt.
  split; [reflexivity|].
  destruct (Z.ltb_spec (len (m_subScript m)) 253) as [Hs|Hs].
  - split; [lia|]. intros _. lia.
  - split; [|intros H; lia].
    destruct (len (m_subScript m) <=? 65535); [lia|].
    destruct (len (m_subScript m) <=? 4294967295); lia.
Qed.

(** X5. The hashed buffer determines every field written into it: when
    two calls on valid indices fill the same buffer, they agree on the
    version, the outpoint, the script code, the amount, the sequence
    number, the lock time and the sighash-type word (each as the unsigned
    word that was written) and on the three digest fields. *)
Theorem preimage_determines_fields
        (m1 m2 : Mem) (h1 i1 a1 h2 i2 a2 : Z) (in1 in2 : TxIn) (p : list byte) :
  0 <= i1 -> 0 <= i2 ->
  nth_error (tx_TxIn (m_tx m1)) (Z.to_nat i1) = Some in1 ->
  nth_error (tx_TxIn (m_tx m2)) (Z.to_nat i2) = Some in2 ->
  script_fits m1 -> script_fits m2 ->
  sigHashPreimage Sum256 h1 i1 a1 m1 = (Returned p, m1) ->
  sigHashPreimage Sum256 h2 i2 a2 m2 = (Returned p, m2) ->
  uint32 (Version (m_tx m1)) = uint32 (Version (m_tx m2))
  /\ Hash (PreviousOutPoint in1) = Hash (PreviousOutPoint in2)
  /\ uint32 (Index (PreviousOutPoint in1)) = uint32 (Index (PreviousOutPoint in2))
  /\ m_subScript m1 = m_subScript m2
  /\ uint64 a1 = uint64 a2
  /\ uint32 (Sequence in1) = uint32 (Sequence in2)
  /\ uint32 (LockTime (m_tx m1)) = uint32 (LockTime (m_tx m2))
  /\ uint32 (Z.lor h1 SigHashForkID) = uint32 (Z.lor h2 SigHashForkID)
  /\ prevOutsField h1 (m_sigHashes m1) = prevOutsField h2 (m_sigHashes m2)
  /\ sequenceField h1 (m_sigHashes m1) = sequenceField h2 (m_sigHashes m2)
  /\ outputsField Sum256 h1 i1 (m_sigHashes m1) (m_tx m1)
     = outputsField Sum256 h2 i2 (m_sigHashes m2) (m_tx m2).
Proof.
  intros Hi1 Hi2 Hn1 Hn2 Hf1 Hf2 Hp1 Hp2.
  rewrite (sigHashPreimage_in_range Sum256 m1 h1 i1 a1 in1 Hi1 Hn1 Hf1) in Hp1.
  rewrite (sigHashPreimage_in_range Sum256 m2 h2 i2 a2 in2 Hi2 Hn2 Hf2) in Hp2.
  injection Hp1 as Hp1. injection Hp2 as Hp2. rewrite <- Hp2 in Hp1.
  clear Hp2. unfold spec_preimage in Hp1.
  apply app_inj_length in Hp1; [|now rewrite !little_endian_length].
  destruct Hp1 as [Hversion Hp1].
  apply app_inj_length in Hp1; [|now rewrite !prevOutsField_length].
  destruct Hp1 as [Hprev Hp1].
  apply app_inj_length in Hp1; [|now rewrite !sequenceField_length].
  destruct Hp1 as [Hseq Hp1].
  apply app_inj_length in Hp1; [|now rewrite !bytes_length].
  destruct Hp1 as [Hhash Hp1].
  apply app_inj_length in Hp1; [|now rewrite !little_endian_length].
  destruct Hp1 as [Hindex Hp1].
  assert (Hdec := f_equal decodeVarInt Hp1).
  rewrite !WriteVarInt_canonical in Hdec
    by (split; [apply len_nonneg|assumption]).
  apply some_pair_inj in Hdec. destruct Hdec as [Hlen Hp1'].
  apply app_inj_length in Hp1'; [|unfold len in Hlen; lia].
  destruct Hp1' as [Hscript Hp1'].
  apply app_inj_length in Hp1'; [|now rewrite !little_endian_length].
  destruct Hp1' as [Hamt Hp1'].
  apply app_inj_length in Hp1'; [|now rewrite !little_endian_length].
  destruct Hp1' as [Hsequence Hp1'].
  apply app_inj_length in Hp1'; [|now rewrite !outputsField_length].
  destruct Hp1' as [Hout Hp1'].
  apply app_inj_length in Hp1'; [|now rewrite !little_endian_length].
  destruct Hp1' as [Hlock Hword].
  apply little_endian_inj in Hversion, Hindex, Hamt, Hsequence, Hlock, Hword.
  apply Vector.to_list_inj in Hhash.
  repeat split; assumption.
Qed.

Lemma nth_error_some_lt {A : Type} (s : list A) (i : Z) (a : A) :
  0 <= i -> nth_error s (Z.to_nat i) = Some a -> i < len s.
Proof.
  intros Hi Hn. unfold len.
  assert (Z.to_nat i < List.length s)%nat; [|lia].
  apply nth_error_Some. congruence.
Qed.

(** X6. The digest computation reads of the transaction only the version,
    the lock time, the outpoint and sequence number of the input being
    signed and, under base type SINGLE, the output at the same index; all
    else reaches the digest through the cache alone. Two transactions that
    agree on these parts (they may differ in other inputs, in signature
    scripts and witnesses, and in outputs) get the same digest from the
    same cache, script code, sighash type and amount. *)
Theorem digest_reads_only_signed_parts (m1 m2 : Mem) (hashType idx amt : Z) :
  0 <= idx -> script_fits m1 ->
  m_subScript m1 = m_subScript m2 ->
  m_sigHashes m1 = m_sigHashes m2 ->
  same_signed_parts hashType idx (m_tx m1) (m_tx m2) ->
  exists d : list byte,
    List.length d = 32%nat
    /\ calcBip143SignatureHash Sum256 hashType idx amt m1
       = (Returned (Some d), m1)
    /\ calcBip143SignatureHash Sum256 hashType idx amt m2
       = (Returned (Some d), m2).
Proof.
  intros Hidx Hfit Hs Hc (Hv & Hl & (i & i' & Hn1 & Hn2 & Hop & Hsq) & Hout).
  assert (Hfit2 : script_fits m2) by (unfold script_fits; now rewrite <- Hs).
  pose proof (sigHashPreimage_in_range Sum256 m1 hashType idx amt i
                Hidx Hn1 Hfit) as Hp1.
  pose proof (sigHashPreimage_in_range Sum256 m2 hashType idx amt i'
                Hidx Hn2 Hfit2) as Hp2.
  assert (Hof : outputsField Sum256 hashType idx (m_sigHashes m2) (m_tx m2)
                = outputsField Sum256 hashType idx (m_sigHashes m1) (m_tx m1)).
  { rewrite !outputsField_by_bits by exact Hidx. rewrite Hc.
    destruct (negb (Z.testbit hashType 1)); [reflexivity|].
    destruct (Z.eqb_spec (baseType hashType) SigHashSingle) as [E|E].
    - now rewrite (Hout E).
    - destruct (nth_error (tx_TxOut (m_tx m2)) (Z.to_nat idx));
        destruct (nth_error (tx_TxOut (m_tx m1)) (Z.to_nat idx)); reflexivity. }
  rewrite Hof in Hp2. rewrite <- Hs, <- Hc, <- Hv, <- Hl, <- Hop, <- Hsq in Hp2.
  eexists. split; [apply DoubleHashB_length|]. split.
  - exact (calc_in_range Sum256 m1 hashType idx amt _
             (nth_error_some_lt _ _ _ Hidx Hn1) Hp1).
  - exact (calc_in_range Sum256 m2 hashType idx amt _
             (nth_error_some_lt _ _ _ Hidx Hn2) Hp2).
Qed.

(** X7. Under ANYONECANPAY with bit 1 of the sighash type set (NONE or
    SINGLE among the named types) the cache is not read: whatever three
    hashes it holds, the digest is the same. *)
Theorem anyonecanpay_without_all_ignores_cache
        (m : Mem) (hashType idx amt : Z) (c c' : TxSigHashes) :
  valid_index m idx -> script_fits m ->
  anyoneCanPay hashType = true -> Z.testbit hashType 1 = true ->
  exists d : list byte,
    List.length d = 32%nat
    /\ calcBip143SignatureHash Sum256 hashType idx amt (with_cache m c)
       = (Returned (Some d), with_cache m c)
    /\ calcBip143SignatureHash Sum256 hashType idx amt (with_cache m c')
       = (Returned (Some d), with_cache m c').
Proof.
  intros Hidx Hfit Hacp Hbit.
  destruct (nth_error_in_range _ _ Hidx) as [txin Htxin].
  pose proof (sigHashPreimage_in_range Sum256 (with_cache m c) hashType idx amt
                txin (proj1 Hidx) Htxin Hfit) as Hp1.
  pose proof (sigHashPreimage_in_range Sum256 (with_cache m c') hashType idx amt
                txin (proj1 Hidx) Htxin Hfit) as Hp2.
  rewrite !outputsField_by_bits in Hp1, Hp2 by apply Hidx.
  unfold prevOutsField, sequenceField in Hp1, Hp2.
  rewrite anyoneCanPay_test, Hacp, Hbit in Hp1, Hp2.
  cbn [negb andb with_cache m_sigHashes m_tx m_subScript] in Hp1, Hp2.
  eexists. split; [apply DoubleHashB_length|]. split.
  - exact (calc_in_range Sum256 (with_cache m c) hashType idx amt _
             (proj2 Hidx) Hp1).
  - exact (calc_in_range Sum256 (with_cache m c') hashType idx amt _
             (proj2 Hidx) Hp2).
Qed.

(** Lines 54-129 print nothing and write nothing, on every index. *)
Lemma sigHashPreimage_silent (hashType idx amt : Z) :
  silent (sigHashPreimage Sum256 hashType idx amt).
Proof.
  unfold sigHashPreimage.
  repeat first
    [ apply silent_bind; [|intro]
    | apply silent_if
    | apply silent_ret | apply silent_load | apply silent_index ].
Qed.

(** *** The signature producer *)

(** X8. Every call of [RawTxInSignature] that returns gives one of two
    shapes: a serialized signature followed by one trailer byte, with a
    [nil] error; or no bytes and an error whose message is
    ["cannot sign tx input: "] followed by the message of [key.Sign]. *)
Theorem signature_result_shape
        (m m' : Mem) (idx hashType amt : Z) (key : PrivateKey)
        (out : option (list byte)) (err : option string) :
  RawTxInSignature Sum256 PrivateKey Signature Sign Serialize
                   idx hashType key amt m = (Returned (out, err), m') ->
  (exists (hash : option (list byte)) (signature : Signature),
      Sign key hash = inl signature
      /\ out = Some (Serialize signature
                       ++ [byte_of_Z (Z.lor hashType SigHashForkID)])
      /\ err = None)
  \/ (exists (hash : option (list byte)) (e : string),
         Sign key hash = inr e
         /\ out = None
         /\ err = Some ("cannot sign tx input: " ++ e)%string).
Proof.
  destruct (calcBip143SignatureHash Sum256 hashType idx amt
              (with_cache m (NewTxSigHashes Sum256 (m_tx m))))
    as [[hash|p] m2] eqn:Hcalc.
  - rewrite (RawTxInSignature_returned Sum256 PrivateKey Signature Sign
               Serialize _ _ _ _ _ key _ Hcalc).
    destruct (Sign key hash) as [signature|e] eqn:Hsign; intros H;
      injection H as <- <- _; [left|right]; exists hash; eexists;
      repeat split; exact Hsign.
  - rewrite (RawTxInSignature_panicked Sum256 PrivateKey Signature Sign
               Serialize _ _ _ _ _ key _ Hcalc).
    discriminate.
Qed.

(** X9. The trailer byte of a returned signature is the low byte of the
    caller's sighash type with bit 6 (the fork identifier) set: the base
    type, the ANYONECANPAY flag and every other bit but bit 6 are those
    of [hashType]. *)
Theorem trailer_keeps_type_bits
        (m m' : Mem) (idx hashType amt : Z) (key : PrivateKey)
        (out : list byte) (err : option string) :
  RawTxInSignature Sum256 PrivateKey Signature Sign Serialize
                   idx hashType key amt m = (Returned (Some out, err), m') ->
  exists (body : list byte) (b : byte),
    out = body ++ [b]
    /\ hasForkId (Z_of_byte b) = true
    /\ baseType (Z_of_byte b) = baseType hashType
    /\ anyoneCanPay (Z_of_byte b) = anyoneCanPay hashType
    /\ (forall i : Z, 0 <= i < 8 -> i <> 6 ->
        Z.testbit (Z_of_byte b) i = Z.testbit hashType i).
Proof.
  destruct (calcBip143SignatureHash Sum256 hashType idx amt
              (with_cache m (NewTxSigHashes Sum256 (m_tx m))))
    as [[hash|p] m2] eqn:Hcalc.
  - rewrite (RawTxInSignature_returned Sum256 PrivateKey Signature Sign
               Serialize _ _ _ _ _ key _ Hcalc).
    destruct (Sign key hash) as [signature|e]; intros H; [|discriminate H].
    injection H as <- _ _.
    exists (Serialize signature), (byte_of_Z (Z.lor hashType SigHashForkID)).
    split; [reflexivity|]. split; [apply trailer_forkid_bit|].
    split; [apply baseType_trailer|]. split.
    + unfold anyoneCanPay. apply testbit_trailer; lia.
    + intros i Hi Hne. now apply testbit_trailer.
  - rewrite (RawTxInSignature_panicked Sum256 PrivateKey Signature Sign
               Serialize _ _ _ _ _ key _ Hcalc).
    discriminate.
Qed.

(** X10. On a valid index, a returned signature is the serialization of
    what [key.Sign] made of the double hash of the buffer filled with the
    cache that [NewTxSigHashes(tx)] has just built, and its trailer byte
    is the first (least significant) byte of the sighash-type word at the
    end of that buffer; nothing is printed. *)
Theorem trailer_is_low_byte_of_signed_word
        (m m' : Mem) (idx hashType amt : Z) (key : PrivateKey)
        (out : list byte) (err : option string) :
  valid_index m idx -> script_fits m ->
  RawTxInSignature Sum256 PrivateKey Signature Sign Serialize
                   idx hashType key amt m = (Returned (Some out, err), m') ->
  exists (p : list byte) (signature : Signature) (b : byte) (rest : list byte),
    sigHashPreimage Sum256 hashType idx amt
      (with_cache m (NewTxSigHashes Sum256 (m_tx m)))
    = (Returned p, with_cache m (NewTxSigHashes Sum256 (m_tx m)))
    /\ Sign key (Some (DoubleHashB Sum256 p)) = inl signature
    /\ out = Serialize signature ++ [b]
    /\ hashTypeWord p = b :: rest
    /\ err = None
    /\ m' = with_cache m (NewTxSigHashes Sum256 (m_tx m)).
Proof.
  intros Hidx Hfit.
  destruct (sigHashPreimage_valid Sum256
              (with_cache m (NewTxSigHashes Sum256 (m_tx m)))
              hashType idx amt Hidx Hfit) as (txin & _ & Hp).
  pose proof (calc_in_range Sum256
                (with_cache m (NewTxSigHashes Sum256 (m_tx m)))
                hashType idx amt _ (proj2 Hidx) Hp) as Hcalc.
  rewrite (RawTxInSignature_returned Sum256 PrivateKey Signature Sign
             Serialize _ _ _ _ _ key _ Hcalc).
  destruct (Sign key _) as [signature|e] eqn:Hsign; intros H;
    [|discriminate H].
  injection H as <- <- <-.
  eexists. exists signature. do 2 eexists.
  split; [exact Hp|]. split; [exact Hsign|]. split; [reflexivity|].
  split; [|now split].
  rewrite hashTypeWord_layout. reflexivity.
Qed.

(** X11. A negative index makes [RawTxInSignature] panic with the index
    out of range of the digest computation: [key.Sign] is not reached and
    nothing is returned or printed. *)
Theorem negative_index_panics_in_signature
        (m : Mem) (idx hashType amt : Z) (key : PrivateKey) :
  idx < 0 ->
  RawTxInSignature Sum256 PrivateKey Signature Sign Serialize
                   idx hashType key amt m
  = (Panicked (IndexOutOfRange idx (len (tx_TxIn (m_tx m)))),
     with_cache m (NewTxSigHashes Sum256 (m_tx m))).
Proof.
  intros Hneg.
  apply RawTxInSignature_panicked.
  unfold calcBip143SignatureHash. rewrite bind_load.
  replace (idx >? len (tx_TxIn (m_tx (with_cache m (NewTxSigHashes Sum256 (m_tx m))))) - 1)
    with false.
  - apply bind_panicked. unfold sigHashPreimage. rewrite !bind_load.
    apply bind_panicked. now apply index_negative.
  - symmetry. rewrite Z.gtb_ltb. apply Z.ltb_ge.
    pose proof (len_nonneg
                  (tx_TxIn (m_tx (with_cache m (NewTxSigHashes Sum256 (m_tx m)))))).
    lia.
Qed.

(** X12. [RawTxInSignature] never changes the transaction or the script
    code, whatever the index and whatever it returns; standard output
    either stays as it was or gains the one diagnostic line. *)
Theorem signature_never_mutates_inputs
        (m : Mem) (idx hashType amt : Z) (key : PrivateKey) :
  let m' := snd (RawTxInSignature Sum256 PrivateKey Signature Sign Serialize
                                  idx hashType key amt m) in
  m_tx m' = m_tx m
  /\ m_subScript m' = m_subScript m
  /\ (m_stdout m' = m_stdout m
      \/ m_stdout m'
         = m_stdout m ++ [diagnostic idx (len (tx_TxIn (m_tx m)))]).
Proof.
  intros m'. subst m'.
  set (m1 := with_cache m (NewTxSigHashes Sum256 (m_tx m))).
  pose proof (calcBip143SignatureHash_preserves Sum256 hashType idx amt m1)
    as (Hs & _ & Ht).
  assert (Hout :
            m_stdout (snd (calcBip143SignatureHash Sum256 hashType idx amt m1))
            = m_stdout m
            \/ m_stdout (snd (calcBip143SignatureHash Sum256 hashType idx amt m1))
               = m_stdout m ++ [diagnostic idx (len (tx_TxIn (m_tx m)))]).
  { destruct (Z.le_gt_cases (len (tx_TxIn (m_tx m1))) idx) as [Hbig|Hsmall].
    - right. now rewrite (calc_out_of_range Sum256 m1 hashType idx amt Hbig).
    - left. unfold calcBip143SignatureHash. rewrite bind_load.
      replace (idx >? len (tx_TxIn (m_tx m1)) - 1) with false
        by (symmetry; rewrite Z.gtb_ltb; apply Z.ltb_ge; lia).
      rewrite (silent_bind _ _ (sigHashPreimage_silent hashType idx amt)
                 (fun p => silent_ret _) m1).
      reflexivity. }
  destruct (calcBip143SignatureHash Sum256 hashType idx amt m1)
    as [[hash|p] m2] eqn:Hcalc; simpl in Hs, Ht, Hout.
  - rewrite (RawTxInSignature_returned Sum256 PrivateKey Signature Sign
               Serialize _ _ _ _ _ key _ Hcalc).
    destruct (Sign key hash); simpl; now repeat split.
  - rewrite (RawTxInSignature_panicked Sum256 PrivateKey Signature Sign
               Serialize _ _ _ _ _ key _ Hcalc).
    simpl. now repeat split.
Qed.

End Further.


(** ** The further properties at concrete inputs *)

Lemma nil_digest_iff_index_too_large_witness :
  script_fits Sample.mem
  /\ (fst (calcBip143SignatureHash Sample.Sum256 65 2 5000 Sample.mem)
      = Returned None
      <-> len (wire.tx_TxIn (m_tx Sample.mem)) <= 2).
Proof.
  split; [sample_script|].
  apply (nil_digest_iff_index_too_large Sample.Sum256 Sample.mem 65 2 5000).
  sample_script.
Defined.

(** SINGLE|FORKID on input 0, which has an output beside it. *)
Lemma outputs_slot_for_every_type_witness :
  valid_index Sample.mem 0 /\ script_fits Sample.mem
  /\ exists p : list byte,
       sigHashPreimage Sample.Sum256 67 0 5000 Sample.mem
       = (Returned p, Sample.mem)
       /\ outputsSlot p
          = DoubleHashB Sample.Sum256
              (wire.WriteTxOut Buffer.empty Sample.out0).
Proof.
  split; [sample_index|]. split; [sample_script|].
  destruct (outputs_slot_for_every_type Sample.Sum256 Sample.mem 67 0 5000)
    as (p & Hp & _ & Hslot); [sample_index|sample_script|].
  exists p. split; [exact Hp|exact Hslot].
Defined.

(** A one-byte script code: 158 bytes. *)
Lemma preimage_length_witness :
  valid_index Sample.mem 1 /\ script_fits Sample.mem
  /\ exists p : list byte,
       sigHashPreimage Sample.Sum256 65 1 5000 Sample.mem
       = (Returned p, Sample.mem)
       /\ len p = 158.
Proof.
  split; [sample_index|]. split; [sample_script|].
  destruct (preimage_length Sample.Sum256 Sample.mem 65 1 5000)
    as (p & Hp & _ & _ & Hlen); [sample_index|sample_script|].
  exists p. split; [exact Hp|]. apply Hlen. unfold len; simpl; lia.
Defined.

(** The amounts 5000 and 5000 + 2^64 fill the same buffer, from two stores
    that differ in what was printed: the fields read back agree. *)
Lemma preimage_determines_fields_witness :
  script_fits Sample.mem
  /\ script_fits (printing Sample.mem (diagnostic 7 2))
  /\ uint64 5000 = uint64 18446744073709556616
  /\ m_subScript Sample.mem
     = m_subScript (printing Sample.mem (diagnostic 7 2)).
Proof.
  split; [sample_script|]. split; [sample_script|].
  edestruct (preimage_determines_fields
               Sample.Sum256 Sample.mem (printing Sample.mem (diagnostic 7 2))
               65 0 5000 65 0 18446744073709556616 Sample.in0 Sample.in0)
    as (_ & _ & _ & Hscript & Hamt & _);
    [lia|lia|reflexivity|reflexivity|sample_script|sample_script
    |reflexivity|reflexivity|].
  split; [exact Hamt|exact Hscript].
Defined.

(** Input 0 under ALL|FORKID in two transactions that share its outpoint
    and sequence number and nothing else but version and lock time. *)
Lemma digest_reads_only_signed_parts_witness :
  script_fits Sample.mem
  /\ same_signed_parts 65 0 (m_tx Sample.mem) (m_tx Sample.mem')
  /\ m_tx Sample.mem <> m_tx Sample.mem'
  /\ exists d : list byte,
       calcBip143SignatureHash Sample.Sum256 65 0 5000 Sample.mem
       = (Returned (Some d), Sample.mem)
       /\ calcBip143SignatureHash Sample.Sum256 65 0 5000 Sample.mem'
          = (Returned (Some d), Sample.mem').
Proof.
  assert (Hparts : same_signed_parts 65 0 (m_tx Sample.mem) (m_tx Sample.mem')).
  { split; [reflexivity|]. split; [reflexivity|]. split.
    - exists Sample.in0, Sample.in0'. now repeat split.
    - intros H. vm_compute in H. discriminate H. }
  split; [sample_script|]. split; [exact Hparts|].
  split; [intros H; discriminate H|].
  destruct (digest_reads_only_signed_parts
              Sample.Sum256 Sample.mem Sample.mem' 65 0 5000)
    as (d & _ & H1 & H2);
    [lia|sample_script|reflexivity|reflexivity|exact Hparts|].
  exists d. split; [exact H1|exact H2].
Defined.

(** NONE|ANYONECANPAY|FORKID (0xc2) with two different caches. *)
Lemma anyonecanpay_without_all_ignores_cache_witness :
  valid_index Sample.mem 0 /\ script_fits Sample.mem
  /\ anyoneCanPay 194 = true /\ Z.testbit 194 1 = true
  /\ Sample.sigHashes <> Sample.sigHashes'
  /\ exists d : list byte,
       calcBip143SignatureHash Sample.Sum256 194 0 5000
         (with_cache Sample.mem Sample.sigHashes)
       = (Returned (Some d), with_cache Sample.mem Sample.sigHashes)
       /\ calcBip143SignatureHash Sample.Sum256 194 0 5000
            (with_cache Sample.mem Sample.sigHashes')
          = (Returned (Some d), with_cache Sample.mem Sample.sigHashes').
Proof.
  split; [sample_index|]. split; [sample_script|].
  split; [reflexivity|]. split; [reflexivity|].
  split; [intros H; discriminate H|].
  destruct (anyonecanpay_without_all_ignores_cache
              Sample.Sum256 Sample.mem 194 0 5000
              Sample.sigHashes Sample.sigHashes')
    as (d & _ & H1 & H2); [sample_index|sample_script|reflexivity|reflexivity|].
  exists d. split; [exact H1|exact H2].
Defined.

(** A refused key on a valid index: the second shape. *)
Lemma signature_result_shape_witness :
  RawTxInSignature Sample.Sum256 Sample.PrivateKey Sample.Signature
                   Sample.Sign Sample.Serialize 0 65 0 5000 Sample.mem
  = (Returned (None, Some "cannot sign tx input: invalid private key"%string),
     with_cache Sample.mem (NewTxSigHashes Sample.Sum256 Sample.tx))
  /\ ((exists (hash : option (list byte)) (signature : Sample.Signature),
          Sample.Sign 0 hash = inl signature
          /\ @None (list byte)
             = Some (Sample.Serialize signature
                       ++ [byte_of_Z (Z.lor 65 SigHashForkID)])
          /\ Some "cannot sign tx input: invalid private key"%string = None)
      \/ (exists (hash : option (list byte)) (e : string),
             Sample.Sign 0 hash = inr e
             /\ @None (list byte) = None
             /\ Some "cannot sign tx input: invalid private key"%string
                = Some ("cannot sign tx input: " ++ e)%string)).
Proof.
  split; [reflexivity|].
  apply (signature_result_shape
           Sample.Sum256 Sample.PrivateKey Sample.Signature
           Sample.Sign Sample.Serialize Sample.mem
           (with_cache Sample.mem (NewTxSigHashes Sample.Sum256 Sample.tx))
           0 65 5000 0).
  reflexivity.
Defined.

(** SINGLE|ANYONECANPAY (0x83) signed with key 5: the trailer keeps base
    type 3 and the flag, and gains the fork identifier. *)
Lemma trailer_keeps_type_bits_witness :
  exists (out : list byte) (m' : Mem),
    RawTxInSignature Sample.Sum256 Sample.PrivateKey Sample.Signature
                     Sample.Sign Sample.Serialize 0 131 5 5000 Sample.mem
    = (Returned (Some out, None), m')
    /\ exists (body : list byte) (b : byte),
         out = body ++ [b]
         /\ hasForkId (Z_of_byte b) = true
         /\ baseType (Z_of_byte b) = baseType 131
         /\ anyoneCanPay (Z_of_byte b) = anyoneCanPay 131
         /\ (forall i : Z, 0 <= i < 8 -> i <> 6 ->
             Z.testbit (Z_of_byte b) i = Z.testbit 131 i).
Proof.
  do 2 eexists. split; [reflexivity|].
  apply (trailer_keeps_type_bits
           Sample.Sum256 Sample.PrivateKey Sample.Signature
           Sample.Sign Sample.Serialize Sample.mem
           (with_cache Sample.mem (NewTxSigHashes Sample.Sum256 Sample.tx))
           0 131 5000 5 _ None).
  reflexivity.
Defined.

(** ALL|FORKID on input 0, key 5: trailer and word both start with 0x41. *)
Lemma trailer_is_low_byte_of_signed_word_witness :
  valid_index Sample.mem 0 /\ script_fits Sample.mem
  /\ exists (out : list byte) (m' : Mem) (p : list byte)
            (signature : Sample.Signature) (b : byte) (rest : list byte),
       RawTxInSignature Sample.Sum256 Sample.PrivateKey Sample.Signature
                        Sample.Sign Sample.Serialize 0 65 5 5000 Sample.mem
       = (Returned (Some out, None), m')
       /\ out = Sample.Serialize signature ++ [b]
       /\ hashTypeWord p = b :: rest.
Proof.
  split; [sample_index|]. split; [sample_script|].
  edestruct (trailer_is_low_byte_of_signed_word
               Sample.Sum256 Sample.PrivateKey Sample.Signature
               Sample.Sign Sample.Serialize Sample.mem
               (with_cache Sample.mem (NewTxSigHashes Sample.Sum256 Sample.tx))
               0 65 5000 5)
    as (p & signature & b & rest & _ & _ & Hout & Hword & _);
    [sample_index|sample_script|reflexivity|].
  do 2 eexists. exists p, signature, b, rest.
  split; [reflexivity|]. split; [exact Hout|exact Hword].
Defined.

Lemma negative_index_panics_in_signature_witness :
  -1 < 0
  /\ fst (RawTxInSignature Sample.Sum256 Sample.PrivateKey Sample.Signature
                           Sample.Sign Sample.Serialize (-1) 65 5 5000
                           Sample.mem)
     = Panicked (IndexOutOfRange (-1) 2).
Proof.
  split; [lia|].
  rewrite (negative_index_panics_in_signature
             Sample.Sum256 Sample.PrivateKey Sample.Signature
             Sample.Sign Sample.Serialize Sample.mem (-1) 65 5000 5);
    [reflexivity|lia].
Defined.
